(** * Weave AI Assistant (VS Code extension): a shallow embedding

  The development follows the TypeScript sources:
  - [assistant/weaveAssistant.ts] (the request composer and the two
    transport variants, mock and HTTP),
  - [commands/commandHandler.ts] (the command boundary),
  - [providers/completionProvider.ts], [providers/codeLensProvider.ts].

  JavaScript strings are modelled by [string]; one character stands for
  one UTF-16 code unit (restricted to the range of [ascii]).  Every string
  operation the sources use (template filling, [split], [join],
  [slice], [substring], [length]) works code unit by code unit. *)

From Stdlib Require Import String Ascii List Bool Arith ZArith QArith Lia Sorted.
Import ListNotations.
Close Scope Q_scope.
Open Scope string_scope.

(* ===================================================================== *)
(** ** JavaScript string primitives used by the sources *)
(* ===================================================================== *)

Module JsString.

Definition nl_char : ascii := ascii_of_nat 10.
Definition nl : string := String nl_char EmptyString.
Definition dq : string := String (ascii_of_nat 34) EmptyString.

Definition is_nl (c : ascii) : bool := Ascii.eqb c nl_char.

(** [s.split('\n')]: never the empty array; ["".split('\n')] is [[""]]. *)
Fixpoint split_nl (s : string) : list string :=
  match s with
  | EmptyString => [EmptyString]
  | String c rest =>
      if is_nl c then EmptyString :: split_nl rest
      else match split_nl rest with
           | [] => [String c EmptyString]
           | l :: ls => String c l :: ls
           end
  end.

(** [a.join('\n')]: the empty array joins to the empty string. *)
Fixpoint join_nl (ls : list string) : string :=
  match ls with
  | [] => EmptyString
  | [l] => l
  | l :: rest => l ++ nl ++ join_nl rest
  end.

(** [a.slice(0, n)] for a non-negative integer [n]. *)
Definition slice0 {A} (n : nat) (a : list A) : list A := firstn n a.

(** [s.substring(0, n)] for a non-negative integer [n]. *)
Definition substring0 (n : nat) (s : string) : string := String.substring 0 n s.

(** A string without a line feed: one element of a [split('\n')]. *)
Fixpoint no_nl (s : string) : bool :=
  match s with
  | EmptyString => true
  | String c rest => negb (is_nl c) && no_nl rest
  end.

(** [t.includes(s)], as a proposition and as a program. *)
Definition Includes (s t : string) : Prop :=
  exists pre post, t = pre ++ s ++ post.

Fixpoint includes (s t : string) : bool :=
  String.prefix s t ||
  match t with
  | EmptyString => false
  | String _ t' => includes s t'
  end.

End JsString.

Import JsString.

(* ===================================================================== *)
(** ** Data model: [WeaveCodeContext], [vscode.Position] *)
(* ===================================================================== *)

Record WeaveCodeContext := mkContext {
  code : string;
  language : string;
  fileName : string;
  ctx_line : nat;
  ctx_column : nat
}.

Record Position := mkPosition {
  line : nat;
  character : nat
}.

(* ===================================================================== *)
(** ** Request composer: the prompt templates of [WeaveAssistant] *)
(* ===================================================================== *)

Module Composer.

(** The four operation kinds of the composer. *)
Inductive Operation :=
| GeneratePrompt
| AnalyzeCode
| SuggestOptimization
| Complete (position : Position).

(** The opening fence line, the body, and the closing fence. *)
Definition fence_open (lang : string) : string := "```" ++ lang ++ nl.
Definition fence_close : string := nl ++ "```".
Definition fenced (lang body : string) : string :=
  fence_open lang ++ body ++ fence_close.

Definition generatePrompt_systemPrompt : string :=
  "You are an expert at creating optimized prompts for AI models.
Analyze the provided code and generate a clear, concise prompt that describes its purpose and functionality.".

Definition generatePrompt_userPrompt (context : WeaveCodeContext) : string :=
  "Analyze this " ++ language context ++ " code and generate an optimized prompt that describes it:

```" ++ language context ++ "
" ++ code context ++ "
```

Generate a prompt that:
1. Clearly describes what the code does
2. Mentions key inputs and outputs
3. Includes any important constraints or edge cases
4. Is concise but complete".

Definition analyzeCode_systemPrompt : string :=
  "You are a senior software engineer. Provide insightful analysis of code quality,
potential issues, and improvements.".

Definition analyzeCode_userPrompt (context : WeaveCodeContext) : string :=
  "Analyze this " ++ language context ++ " code:

```" ++ language context ++ "
" ++ code context ++ "
```

Provide analysis including:
1. Code quality assessment
2. Potential bugs or issues
3. Performance considerations
4. Readability and maintainability
5. Best practice recommendations".

Definition suggestOptimization_systemPrompt : string :=
  "You are an expert at optimizing code. Provide specific, actionable optimization suggestions
with example improvements where appropriate.".

Definition suggestOptimization_userPrompt (context : WeaveCodeContext) : string :=
  "Suggest optimizations for this " ++ language context ++ " code:

```" ++ language context ++ "
" ++ code context ++ "
```

For each suggestion:
1. Explain the current inefficiency
2. Provide the optimized approach
3. Show a code example if applicable
4. Estimate the performance improvement if measurable".

(** [lines.slice(0, position.line).join('\n')] *)
Definition previousLines (context : WeaveCodeContext) (position : Position) : string :=
  let lines := split_nl (code context) in
  join_nl (slice0 (line position) lines).

Definition generateCompletion_systemPrompt : string :=
  "You are a code completion expert. Complete the code based on context.
Respond with only the completion text, no explanations.".

Definition generateCompletion_userPrompt
           (context : WeaveCodeContext) (position : Position) : string :=
  "Complete this " ++ language context ++ " code based on context:

```" ++ language context ++ "
" ++ previousLines context position ++ "
|CURSOR_HERE|
```

Provide a natural completion that fits the code style and logic.".

Definition generateDocumentation_systemPrompt : string :=
  "You are a documentation expert. Generate clear, concise documentation for code.".

Definition generateDocumentation_userPrompt (context : WeaveCodeContext) : string :=
  "Generate JSDoc/documentation for this " ++ language context ++ " code:

```" ++ language context ++ "
" ++ code context ++ "
```

Include description, parameters, return type, and examples where relevant.".

(** [compose(operation, context)]: the prompt pair handed to the transport. *)
Definition compose (op : Operation) (context : WeaveCodeContext) : string * string :=
  match op with
  | GeneratePrompt =>
      (generatePrompt_systemPrompt, generatePrompt_userPrompt context)
  | AnalyzeCode =>
      (analyzeCode_systemPrompt, analyzeCode_userPrompt context)
  | SuggestOptimization =>
      (suggestOptimization_systemPrompt, suggestOptimization_userPrompt context)
  | Complete position =>
      (generateCompletion_systemPrompt, generateCompletion_userPrompt context position)
  end.

Definition userPrompt (op : Operation) (context : WeaveCodeContext) : string :=
  snd (compose op context).

End Composer.

(* ===================================================================== *)
(** ** JavaScript values, thrown values, and the effect monad *)
(* ===================================================================== *)

Module Js.

(** Run-time values as they arrive in a parsed JSON body.  The TypeScript
    casts [x as string] and [x as number] leave the value untouched, so
    fields read from the body stay of this type.  An object is the list of
    its own properties, the first binding of a key being its value; an
    array is the object of its indices. *)
#[warnings="-register-all"]
Inductive Value :=
| Undefined
| Null
| Bool (b : bool)
| Number (n : Q)
| Str (s : string)
| Object (fields : list (string * Value)).

(** What a [throw] or a rejected promise carries: an [Error] instance with
    its [message], or any other value. *)
Inductive Thrown :=
| ErrorInstance (message : string)
| NonError (v : Value).

(** [ToBoolean]. *)
Definition truthy (v : Value) : bool :=
  match v with
  | Undefined | Null => false
  | Bool b => b
  | Number n => negb (Qeq_bool n 0%Q)
  | Str s => negb (String.eqb s "")
  | Object _ => true
  end.

(** [v || d] *)
Definition or_else (v d : Value) : Value := if truthy v then v else d.

Fixpoint assoc (k : string) (fields : list (string * Value)) : Value :=
  match fields with
  | [] => Undefined
  | (k', v) :: rest => if String.eqb k k' then v else assoc k rest
  end.

Inductive Outcome (A : Type) :=
| Returns (a : A)
| Throws (e : Thrown).
Arguments Returns {A} a.
Arguments Throws {A} e.

End Js.

Import Js.

(** Provider vendors, result kinds and the request body of the wire call. *)
Inductive Provider := openai | anthropic | local.

Definition provider_name (p : Provider) : string :=
  match p with
  | openai => "openai"
  | anthropic => "anthropic"
  | local => "local"
  end.

Inductive ResultType := analysis | suggestion | completion.

Definition type_name (t : ResultType) : string :=
  match t with
  | analysis => "analysis"
  | suggestion => "suggestion"
  | completion => "completion"
  end.

Record RequestBody := mkBody {
  prompt : string;
  body_systemPrompt : string;
  body_provider : Provider;
  body_model : string;
  body_temperature : Q;
  body_maxTokens : Z;
  codeContext_language : string;
  codeContext_fileName : string;
  codeContext_line : nat;
  codeContext_column : nat
}.

(** The observable effects, in program order. *)
Inductive Event :=
| ShowErrorMessage (message : string)
| ShowInformationMessage (message : string) (items : list string)
| WithProgress (title message : string)
| SetTimeout (ms : nat)
| HttpPost (url : string) (body : RequestBody)
| CreateWebviewPanel (viewType title : string)
| SetWebviewHtml (html : string)
| ClipboardWriteText (text : Value)
| SetStatusBarText (text : string)
| LogInfo (message : string)
| LogError (message : string).

Module Eff.

(** A computation emits events and then returns or throws. *)
Definition M (A : Type) : Type := list Event * Outcome A.

Definition ret {A} (a : A) : M A := ([], Returns a).
Definition throw {A} (e : Thrown) : M A := ([], Throws e).
Definition emit (ev : Event) : M unit := ([ev], Returns tt).

Definition bind {A B} (m : M A) (f : A -> M B) : M B :=
  match m with
  | (t, Returns a) => let (t', r) := f a in ((t ++ t')%list, r)
  | (t, Throws e) => (t, Throws e)
  end.

(** [try { m } catch (error) { h error }] *)
Definition try_catch {A} (m : M A) (h : Thrown -> M A) : M A :=
  match m with
  | (t, Returns a) => (t, Returns a)
  | (t, Throws e) => let (t', r) := h e in ((t ++ t')%list, r)
  end.

Definition events {A} (m : M A) : list Event := fst m.
Definition outcome {A} (m : M A) : Outcome A := snd m.

End Eff.

Import Eff.

Declare Scope eff_scope.
Delimit Scope eff_scope with eff.
Notation "x <- m ;; k" := (bind m (fun x => k))
  (at level 61, m at next level, right associativity) : eff_scope.
Notation "m ;;; k" := (bind m (fun _ => k))
  (at level 61, right associativity) : eff_scope.
Open Scope eff_scope.

(** Property read [obj.k]: a [TypeError] on [undefined] and [null], the
    field of an object, [undefined] on other primitives (none of the names
    read by the sources is a built-in property). *)
Definition get_property (obj : Value) (k : string) : M Value :=
  match obj with
  | Undefined =>
      throw (ErrorInstance
               ("Cannot read properties of undefined (reading '" ++ k ++ "')"))
  | Null =>
      throw (ErrorInstance
               ("Cannot read properties of null (reading '" ++ k ++ "')"))
  | Object fields => ret (assoc k fields)
  | _ => ret Undefined
  end.

(** A string method [v.method(...)], the receiver written [expr] in the
    source: a [TypeError] unless [v] is a string. *)
Definition string_method (v : Value) (expr method : string) : M string :=
  match v with
  | Str s => ret s
  | Undefined =>
      throw (ErrorInstance
               ("Cannot read properties of undefined (reading '" ++ method ++ "')"))
  | Null =>
      throw (ErrorInstance
               ("Cannot read properties of null (reading '" ++ method ++ "')"))
  | _ => throw (ErrorInstance (expr ++ "." ++ method ++ " is not a function"))
  end.

(* ===================================================================== *)
(** ** [WeaveAssistant]: initialization, operations, the two transports *)
(* ===================================================================== *)

(** The getters of [ConfigurationManager] that the assistant reads. *)
Record ConfigurationManager := mkConfig {
  getApiKey : string;
  getProvider : Provider;
  getModel : string;
  getTemperature : Q;
  getMaxTokens : Z
}.

Record Details := mkDetails {
  tokensUsed : Value;
  cost : Value;
  details_provider : Value;
  details_model : Value
}.

(** [WeaveAnalysisResult]; the [timestamp] (wall-clock time) is left out. *)
Record WeaveAnalysisResult := mkResult {
  type : ResultType;
  content : Value;
  result_language : string;
  details : option Details
}.

(** How [httpClient.post] settles: it rejects, or it resolves with a
    response whose [data] is the given value. *)
Inductive HttpReply :=
| PostRejects (error : Thrown)
| PostResolves (data : Value).

(** The two [callWeaveAPI] variants of the repository. *)
Inductive Transport :=
| MockTransport
| HttpTransport (reply : HttpReply).

Module Assistant.

Record WeaveAssistant := mkAssistant {
  config : ConfigurationManager;
  isInitialized : bool
}.

(** [constructor(config)] *)
Definition new (config : ConfigurationManager) : WeaveAssistant :=
  {| config := config; isInitialized := false |}.

Definition is_local (p : Provider) : bool :=
  match p with local => true | _ => false end.

(** [initialize()]: the new state of the object and the effects. *)
Definition initialize (a : WeaveAssistant) : WeaveAssistant * M unit :=
  let apiKey := getApiKey (config a) in
  let provider := getProvider (config a) in
  if negb (truthy (Str apiKey)) && negb (is_local provider) then
    (a, emit (LogError "Failed to initialize WeaveAssistant:") ;;;
        throw (ErrorInstance ("API key not configured for " ++ provider_name provider)))
  else
    ({| config := config a; isInitialized := true |},
     emit (LogInfo "WeaveAssistant initialized successfully")).

(** [dispose()] *)
Definition dispose (a : WeaveAssistant) : WeaveAssistant :=
  {| config := config a; isInitialized := false |}.

Definition ensureInitialized (a : WeaveAssistant) : M unit :=
  if negb (isInitialized a) then
    throw (ErrorInstance "WeaveAssistant not initialized")
  else ret tt.

Definition endpoint : string := "http://localhost:3000/api/v1/generate".

(** The mock variant: a progress notification, a fixed delay, a fixed text. *)
Definition callWeaveAPI_mock (systemPrompt userPrompt : string)
           (type : ResultType) (context : WeaveCodeContext) : M WeaveAnalysisResult :=
  try_catch
    (emit (WithProgress "Weave AI Assistant" "Analyzing with Weave AI...") ;;;
     emit (SetTimeout 1000) ;;;
     ret {| type := type;
            content := Str ("[Mock " ++ type_name type ++
              "] This is a placeholder response. In production, this would be generated by the Weave framework.");
            result_language := language context;
            details := None |})
    (fun error => emit (LogError "Weave API call failed:") ;;; throw error).

(** The HTTP variant: one POST, the body mapped field by field. *)
Definition callWeaveAPI_http (a : WeaveAssistant) (reply : HttpReply)
           (systemPrompt userPrompt : string)
           (type : ResultType) (context : WeaveCodeContext) : M WeaveAnalysisResult :=
  emit (WithProgress "Weave AI Assistant" "Analyzing with Weave AI...") ;;;
  try_catch
    (emit (HttpPost endpoint
             {| prompt := userPrompt;
                body_systemPrompt := systemPrompt;
                body_provider := getProvider (config a);
                body_model := getModel (config a);
                body_temperature := getTemperature (config a);
                body_maxTokens := getMaxTokens (config a);
                codeContext_language := language context;
                codeContext_fileName := fileName context;
                codeContext_line := ctx_line context;
                codeContext_column := ctx_column context |}) ;;;
     data <- match reply with
             | PostRejects error => throw error
             | PostResolves data => ret data
             end ;;
     data_tokensUsed <- get_property data "tokensUsed" ;;
     data_cost <- get_property data "cost" ;;
     emit (LogInfo ("Weave API response received for " ++ type_name type)) ;;;
     data_content <- get_property data "content" ;;
     data_provider <- get_property data "provider" ;;
     data_model <- get_property data "model" ;;
     ret {| type := type;
            content := or_else data_content (Str "");
            result_language := language context;
            details := Some
              {| tokensUsed := or_else data_tokensUsed (Number 0%Q);
                 cost := or_else data_cost (Number 0%Q);
                 details_provider :=
                   or_else data_provider (Str (provider_name (getProvider (config a))));
                 details_model := or_else data_model (Str (getModel (config a))) |} |})
    (fun error => emit (LogError "Weave API call failed:") ;;; throw error).

Definition callWeaveAPI (a : WeaveAssistant) (transport : Transport)
           (systemPrompt userPrompt : string)
           (type : ResultType) (context : WeaveCodeContext) : M WeaveAnalysisResult :=
  match transport with
  | MockTransport => callWeaveAPI_mock systemPrompt userPrompt type context
  | HttpTransport reply =>
      callWeaveAPI_http a reply systemPrompt userPrompt type context
  end.

(** The transport call fails with [e], whatever it is asked to send. *)
Definition transport_fails (a : WeaveAssistant) (transport : Transport)
           (context : WeaveCodeContext) (e : Thrown) : Prop :=
  forall systemPrompt userPrompt type,
    outcome (callWeaveAPI a transport systemPrompt userPrompt type context)
    = Throws e.

Import Composer.

Definition generatePrompt (a : WeaveAssistant) (transport : Transport)
           (context : WeaveCodeContext) : M WeaveAnalysisResult :=
  ensureInitialized a ;;;
  callWeaveAPI a transport generatePrompt_systemPrompt
               (generatePrompt_userPrompt context) analysis context.

Definition analyzeCode (a : WeaveAssistant) (transport : Transport)
           (context : WeaveCodeContext) : M WeaveAnalysisResult :=
  ensureInitialized a ;;;
  callWeaveAPI a transport analyzeCode_systemPrompt
               (analyzeCode_userPrompt context) analysis context.

Definition suggestOptimization (a : WeaveAssistant) (transport : Transport)
           (context : WeaveCodeContext) : M WeaveAnalysisResult :=
  ensureInitialized a ;;;
  callWeaveAPI a transport suggestOptimization_systemPrompt
               (suggestOptimization_userPrompt context) suggestion context.

Definition generateCompletion (a : WeaveAssistant) (transport : Transport)
           (context : WeaveCodeContext) (position : Position) : M Value :=
  ensureInitialized a ;;;
  result <- callWeaveAPI a transport generateCompletion_systemPrompt
                         (generateCompletion_userPrompt context position)
                         completion context ;;
  ret (content result).

Definition generateDocumentation (a : WeaveAssistant) (transport : Transport)
           (context : WeaveCodeContext) : M Value :=
  ensureInitialized a ;;;
  result <- callWeaveAPI a transport generateDocumentation_systemPrompt
                         (generateDocumentation_userPrompt context)
                         analysis context ;;
  ret (content result).

End Assistant.

(* ===================================================================== *)
(** ** The host editor's objects, as the sources use them *)
(* ===================================================================== *)

Record Range := mkRange {
  range_start : Position;
  range_end : Position
}.

Definition Position_eqb (p q : Position) : bool :=
  Nat.eqb (line p) (line q) && Nat.eqb (character p) (character q).

(** [selection.isEmpty]: start and end coincide. *)
Definition isEmpty (r : Range) : bool :=
  Position_eqb (range_start r) (range_end r).

(** [position.translate(lineDelta, characterDelta)] *)
Definition translate (p : Position) (lineDelta characterDelta : nat) : Position :=
  {| line := line p + lineDelta; character := character p + characterDelta |}.

(** [vscode.TextDocument]: the host answers these queries. *)
Record TextDocument := mkDocument {
  languageId : string;
  document_fileName : string;
  getText : string;
  getTextIn : Range -> string;
  getWordRangeAtPosition : Position -> option Range;
  positionAt : nat -> Position
}.

Record TextEditor := mkEditor {
  document : TextDocument;
  selection : Range
}.

(** [token.isCancellationRequested], by the rank of the read in program
    order: read [0] is the first one of an invocation. *)
Definition CancellationToken := nat -> bool.

(* ===================================================================== *)
(** ** [CommandHandler] *)
(* ===================================================================== *)

Module Commands.

Import Assistant.

Record CommandHandler := mkHandler {
  inlineHintsEnabled : bool
}.

(** [content.replace(/\n/g, '<br>')] *)
Fixpoint replace_nl_br (s : string) : string :=
  match s with
  | EmptyString => EmptyString
  | String c rest =>
      if is_nl c then "<br>" ++ replace_nl_br rest
      else String c (replace_nl_br rest)
  end.

Definition webview_html (title text : string) : string :=
  "<!DOCTYPE html>
<html lang=" ++ dq ++ "en" ++ dq ++ ">
<head>
    <meta charset=" ++ dq ++ "UTF-8" ++ dq ++ ">
    <meta name=" ++ dq ++ "viewport" ++ dq ++ " content=" ++ dq ++ "width=device-width, initial-scale=1.0" ++ dq ++ ">
    <title>" ++
  title ++
  "</title>
    <style>
        body {
            font-family: -apple-system, BlinkMacSystemFont, 'Segoe UI', Roboto, Oxygen, Ubuntu, Cantarell, sans-serif;
            padding: 20px;
            line-height: 1.6;
            color: var(--vscode-foreground);
            background-color: var(--vscode-editor-background);
        }
        h1 {
            border-bottom: 1px solid var(--vscode-editorLineNumber-foreground);
            padding-bottom: 10px;
            color: var(--vscode-textLink-foreground);
        }
        code {
            background-color: var(--vscode-editor-lineHighlightBackground);
            padding: 2px 6px;
            border-radius: 4px;
            font-family: 'Courier New', monospace;
        }
        pre {
            background-color: var(--vscode-editor-background);
            border: 1px solid var(--vscode-editorLineNumber-foreground);
            padding: 10px;
            border-radius: 4px;
            overflow-x: auto;
        }
        .copy-button {
            background-color: var(--vscode-button-background);
            color: var(--vscode-button-foreground);
            border: none;
            padding: 5px 10px;
            border-radius: 4px;
            cursor: pointer;
            margin: 10px 0;
        }
        .copy-button:hover {
            background-color: var(--vscode-button-hoverBackground);
        }
    </style>
</head>
<body>
    <h1>" ++
  title ++
  "</h1>
    <div id=" ++ dq ++ "content" ++ dq ++ ">" ++
  replace_nl_br text ++
  "</div>
    <button class=" ++ dq ++ "copy-button" ++ dq ++ " onclick=" ++ dq ++ "copyToClipboard()" ++ dq ++ ">Copy to Clipboard</button>
    <script>
        function copyToClipboard() {
            const content = document.getElementById('content').textContent;
            navigator.clipboard.writeText(content).then(() => {
                alert('Copied to clipboard');
            });
        }
    </script>
</body>
</html>".

Definition getWebviewContent (title : string) (content : Value) : M string :=
  text <- string_method content "content" "replace" ;;
  ret (webview_html title text).

(** [showResult]: the panel is created first, its document is set next. *)
Definition showResult (title : string) (content : Value) : M unit :=
  emit (CreateWebviewPanel "weaveResult" title) ;;;
  html <- getWebviewContent title content ;;
  emit (SetWebviewHtml html).

(** [error instanceof Error ? error.message : 'Unknown error'] *)
Definition error_text (error : Thrown) : string :=
  match error with
  | ErrorInstance message => message
  | NonError _ => "Unknown error"
  end.

Definition context_of (editor : TextEditor) : WeaveCodeContext :=
  {| code := getTextIn (document editor) (selection editor);
     language := languageId (document editor);
     fileName := document_fileName (document editor);
     ctx_line := line (range_start (selection editor));
     ctx_column := character (range_start (selection editor)) |}.

Definition is_copy (action : option string) : bool :=
  match action with
  | Some a => String.eqb a "Copy to Clipboard"
  | None => false
  end.

(** [generatePrompt()]; [action] is the button the user picks, if any. *)
Definition generatePrompt (assistant : WeaveAssistant) (transport : Transport)
           (activeTextEditor : option TextEditor) (action : option string) : M unit :=
  match activeTextEditor with
  | None => emit (ShowErrorMessage "No active editor")
  | Some editor =>
      if isEmpty (selection editor) then
        emit (ShowErrorMessage "Please select code to generate a prompt for")
      else
        let context := context_of editor in
        try_catch
          (result <- Assistant.generatePrompt assistant transport context ;;
           showResult "Weave: Generated Prompt" (content result) ;;;
           emit (ShowInformationMessage "Prompt generated successfully"
                   ["Copy to Clipboard"; "Open in Panel"]) ;;;
           if is_copy action then
             emit (ClipboardWriteText (content result)) ;;;
             emit (ShowInformationMessage "Prompt copied to clipboard" [])
           else ret tt)
          (fun error =>
             emit (ShowErrorMessage ("Failed to generate prompt: " ++ error_text error)))
  end.

(** [analyzeCode()] *)
Definition analyzeCode (assistant : WeaveAssistant) (transport : Transport)
           (activeTextEditor : option TextEditor) : M unit :=
  match activeTextEditor with
  | None => emit (ShowErrorMessage "No active editor")
  | Some editor =>
      if isEmpty (selection editor) then
        emit (ShowErrorMessage "Please select code to analyze")
      else
        let context := context_of editor in
        try_catch
          (result <- Assistant.analyzeCode assistant transport context ;;
           showResult "Weave: Code Analysis" (content result))
          (fun error =>
             emit (ShowErrorMessage ("Failed to analyze code: " ++ error_text error)))
  end.

(** [suggestOptimization()] *)
Definition suggestOptimization (assistant : WeaveAssistant) (transport : Transport)
           (activeTextEditor : option TextEditor) : M unit :=
  match activeTextEditor with
  | None => emit (ShowErrorMessage "No active editor")
  | Some editor =>
      if isEmpty (selection editor) then
        emit (ShowErrorMessage "Please select code to optimize")
      else
        let context := context_of editor in
        try_catch
          (result <- Assistant.suggestOptimization assistant transport context ;;
           showResult "Weave: Optimization Suggestions" (content result))
          (fun error =>
             emit (ShowErrorMessage ("Failed to get suggestions: " ++ error_text error)))
  end.

(** [toggleInlineHints()] *)
Definition toggleInlineHints (h : CommandHandler) : CommandHandler * M unit :=
  let h' := {| inlineHintsEnabled := negb (inlineHintsEnabled h) |} in
  let status := if inlineHintsEnabled h' then "enabled" else "disabled" in
  (h', emit (ShowInformationMessage ("Inline hints " ++ status) []) ;;;
       emit (SetStatusBarText ("Weave $(lightbulb) " ++ status))).

(** The mutable objects the commands can reach, and what the host and the
    network answer during one invocation. *)
Record Extension := mkExtension {
  weaveAssistant : WeaveAssistant;
  commandHandler : CommandHandler
}.

Record Environment := mkEnvironment {
  activeTextEditor : option TextEditor;
  transport : Transport;
  pickedAction : option string
}.

Inductive Command :=
| weave_generatePrompt
| weave_analyzeCode
| weave_suggestOptimization
| weave_toggleInlineHints.

(** One command invocation: the objects afterwards, and the effects. *)
Definition invoke (st : Extension) (cmd : Command) (env : Environment)
  : Extension * M unit :=
  match cmd with
  | weave_generatePrompt =>
      (st, generatePrompt (weaveAssistant st) (transport env)
                          (activeTextEditor env) (pickedAction env))
  | weave_analyzeCode =>
      (st, analyzeCode (weaveAssistant st) (transport env) (activeTextEditor env))
  | weave_suggestOptimization =>
      (st, suggestOptimization (weaveAssistant st) (transport env)
                               (activeTextEditor env))
  | weave_toggleInlineHints =>
      let (h', m) := toggleInlineHints (commandHandler st) in
      ({| weaveAssistant := weaveAssistant st; commandHandler := h' |}, m)
  end.

(** [n] successive invocations of the toggle command. *)
Fixpoint toggle_times (n : nat) (h : CommandHandler) : CommandHandler :=
  match n with
  | O => h
  | S k => toggle_times k (fst (toggleInlineHints h))
  end.

End Commands.

(* ===================================================================== *)
(** ** The pattern [/^(async\s+)?(function|class)\s+(\w+)/gm] *)
(* ===================================================================== *)

Module FunctionPattern.

Definition code_in (c : ascii) (codes : list nat) : bool :=
  existsb (Nat.eqb (nat_of_ascii c)) codes.

(** Line terminators (for [^] under the [m] flag), white space ([\s]) and
    word characters ([\w]), within the range of [ascii]. *)
Definition is_line_terminator (c : ascii) : bool := code_in c [10; 13].

Definition is_space (c : ascii) : bool := code_in c [9; 10; 11; 12; 13; 32; 160].

Definition is_word (c : ascii) : bool :=
  let n := nat_of_ascii c in
  (Nat.leb 48 n && Nat.leb n 57) || (Nat.leb 65 n && Nat.leb n 90)
  || (Nat.leb 97 n && Nat.leb n 122) || Nat.eqb n 95.

(** A literal at the head of [s]: the rest of [s] behind it. *)
Fixpoint strip_literal (lit s : string) : option string :=
  match lit, s with
  | EmptyString, _ => Some s
  | String a lit', String b s' =>
      if Ascii.eqb a b then strip_literal lit' s' else None
  | String _ _, EmptyString => None
  end.

(** The longest run of characters satisfying [p] at the head of [s]: its
    length and the rest of [s]. *)
Fixpoint run (p : ascii -> bool) (s : string) : nat * string :=
  match s with
  | EmptyString => (0, EmptyString)
  | String c rest =>
      if p c then let (n, r) := run p rest in (S n, r) else (0, s)
  end.

(** [p+], greedy. *)
Definition plus (p : ascii -> bool) (s : string) : option (nat * string) :=
  match run p s with
  | (O, _) => None
  | (S n, r) => Some (S n, r)
  end.

(** [(function|class)]: the alternatives in order. *)
Definition keyword (s : string) : option (nat * string) :=
  match strip_literal "function" s with
  | Some r => Some (8, r)
  | None =>
      match strip_literal "class" s with
      | Some r => Some (5, r)
      | None => None
      end
  end.

(** [(function|class)\s+(\w+)] at the head of [s]: the length matched. *)
Definition declaration (s : string) : option nat :=
  match keyword s with
  | Some (k, r1) =>
      match plus is_space r1 with
      | Some (n1, r2) =>
          match plus is_word r2 with
          | Some (n2, _) => Some (k + n1 + n2)
          | None => None
          end
      | None => None
      end
  | None => None
  end.

(** [(async\s+)?(function|class)\s+(\w+)] at the head of [s].  The optional
    group is tried first and given up when the rest fails behind it.  (A
    shorter [\s+] cannot help: the next character would be white space,
    which starts neither keyword and is no word character.) *)
Definition match_here (s : string) : option nat :=
  match strip_literal "async" s with
  | Some r =>
      match plus is_space r with
      | Some (n, r') =>
          match declaration r' with
          | Some m => Some (5 + n + m)
          | None => declaration s
          end
      | None => declaration s
      end
  | None => declaration s
  end.

(** The first match in [s], which begins at offset [index] of the text;
    [at_line_start] tells whether [^] holds at [index]. *)
Fixpoint search (s : string) (index : nat) (at_line_start : bool)
  : option (nat * nat) :=
  match s with
  | EmptyString => None
  | String c rest =>
      match (if at_line_start then match_here s else None) with
      | Some len => Some (index, index + len)
      | None => search rest (S index) (is_line_terminator c)
      end
  end.

Fixpoint drop (n : nat) (s : string) : string :=
  match n, s with
  | O, _ => s
  | S k, String _ rest => drop k rest
  | S _, EmptyString => EmptyString
  end.

Definition line_start (text : string) (i : nat) : bool :=
  match i with
  | O => true
  | S j =>
      match String.get j text with
      | Some c => is_line_terminator c
      | None => false
      end
  end.

(** [functionPattern.exec(text)] with the pattern's [lastIndex] as given:
    [match.index] and the new [lastIndex], or [None] for [null]. *)
Definition exec (text : string) (lastIndex : nat) : option (nat * nat) :=
  if Nat.ltb (String.length text) lastIndex then None
  else search (drop lastIndex text) lastIndex (line_start text lastIndex).

(** The indices of the successive matches, [exec] called until [null];
    [None] when [fuel] calls did not reach [null]. *)
Fixpoint exec_all (fuel : nat) (text : string) (lastIndex : nat)
  : option (list nat) :=
  match fuel with
  | O => None
  | S fuel' =>
      match exec text lastIndex with
      | None => Some []
      | Some (index, lastIndex') =>
          option_map (cons index) (exec_all fuel' text lastIndex')
      end
  end.

(** Each match consumes at least one character: this many calls suffice. *)
Definition enough (text : string) : nat := S (String.length text).

Definition matches (text : string) : list nat :=
  match exec_all (enough text) text 0 with
  | Some l => l
  | None => []
  end.

End FunctionPattern.

(* ===================================================================== *)
(** ** The unanchored pattern of the specification's prose *)
(* ===================================================================== *)

Module ProsePattern.

Import FunctionPattern.

(** [(function|class) name]: one blank, then an identifier. *)
Definition declaration (s : string) : option nat :=
  match keyword s with
  | Some (k, r1) =>
      match strip_literal " " r1 with
      | Some r2 =>
          match plus is_word r2 with
          | Some (n2, _) => Some (k + 1 + n2)
          | None => None
          end
      | None => None
      end
  | None => None
  end.

(** [(async )?(function|class) name] at the head of [s]. *)
Definition match_here (s : string) : option nat :=
  match strip_literal "async " s with
  | Some r =>
      match declaration r with
      | Some m => Some (6 + m)
      | None => declaration s
      end
  | None => declaration s
  end.

(** The occurrences in [s], left to right and without overlap: [skip]
    characters of the previous occurrence are still to be passed. *)
Fixpoint occurrences_from (s : string) (skip : nat) : nat :=
  match s with
  | EmptyString => 0
  | String _ rest =>
      match skip with
      | S k => occurrences_from rest k
      | O =>
          match match_here s with
          | Some len => S (occurrences_from rest (pred len))
          | None => occurrences_from rest 0
          end
      end
  end.

Definition occurrences (text : string) : nat := occurrences_from text 0.

End ProsePattern.

(* ===================================================================== *)
(** ** [CodeCompletionProvider] and [CodeLensProvider] *)
(* ===================================================================== *)

Module Providers.

Import Assistant.

Inductive CompletionTriggerKind :=
| Invoke
| TriggerCharacter
| TriggerForIncompleteCompletions.

Record CompletionContext := mkCompletionContext {
  triggerKind : CompletionTriggerKind;
  triggerCharacter : option string
}.

Inductive CompletionItemKind := Text.

Record CompletionItem := mkItem {
  label : string;
  kind : CompletionItemKind;
  sortText : string;
  detail : string;
  documentation : string
}.

Definition is_TriggerCharacter (k : CompletionTriggerKind) : bool :=
  match k with TriggerCharacter => true | _ => false end.

(** [!context.triggerCharacter]: absent, or the empty string. *)
Definition no_character (c : option string) : bool :=
  match c with
  | None => true
  | Some s => negb (truthy (Str s))
  end.

(** The word under the cursor: [range ? document.getText(range) : ''] *)
Definition word_at (document : TextDocument) (position : Position) : string :=
  match getWordRangeAtPosition document position with
  | Some range => getTextIn document range
  | None => ""
  end.

(** [provideCompletionItems]: [None] is the source's [null]. *)
Definition provideCompletionItems
           (weaveAssistant : WeaveAssistant) (transport : Transport)
           (document : TextDocument) (position : Position)
           (token : CancellationToken) (context : CompletionContext)
  : M (option (list CompletionItem)) :=
  if token 0 then ret None
  else
    let word := word_at document position in
    if Nat.ltb (String.length word) 3 then ret None
    else if is_TriggerCharacter (triggerKind context)
            && no_character (triggerCharacter context) then ret None
    else
      try_catch
        (if token 1 then ret None
         else
           let code := getText document in
           completion <- generateCompletion weaveAssistant transport
                           {| code := code;
                              language := languageId document;
                              fileName := document_fileName document;
                              ctx_line := line position;
                              ctx_column := character position |}
                           position ;;
           if token 2 then ret None
           else
             text <- string_method completion "completion" "substring" ;;
             ret (Some [ {| label := "Weave: " ++ substring0 50 text ++ "...";
                            kind := Text;
                            sortText := "0-weave";
                            detail := "AI-powered completion by Weave";
                            documentation :=
                              "Completion suggested by Weave AI Assistant" |} ]))
        (fun error => emit (LogError "Completion provider error:") ;;; ret None).

Record CodeLens := mkLens {
  range : Range;
  title : string;
  command : string
}.

Definition analyze_lens : CodeLens :=
  {| range := {| range_start := {| line := 0; character := 0 |};
                 range_end := {| line := 0; character := 0 |} |};
     title := "$(lightbulb) Weave: Analyze";
     command := "weave.analyzeCode" |}.

Definition optimize_lens (document : TextDocument) (index : nat) : CodeLens :=
  let position := positionAt document index in
  {| range := {| range_start := position;
                 range_end := translate position 0 5 |};
     title := "$(wand) Weave: Optimize";
     command := "weave.suggestOptimization" |}.

(** How the scanning loop ends: it returns ([None] is [null]), or the
    given number of iterations was not enough to reach its end. *)
Inductive LoopResult :=
| Returned (lenses : option (list CodeLens))
| OutOfFuel.

(** [while ((match = functionPattern.exec(document.getText())) !== null)],
    with the pattern's [lastIndex], the rank of the next token read and the
    lenses pushed so far. *)
Fixpoint scan (fuel : nat) (document : TextDocument) (token : CancellationToken)
         (lastIndex reads : nat) (lenses : list CodeLens) : LoopResult :=
  match fuel with
  | O => OutOfFuel
  | S fuel' =>
      match FunctionPattern.exec (getText document) lastIndex with
      | None => Returned (Some lenses)
      | Some (index, lastIndex') =>
          if token reads then Returned None
          else scan fuel' document token lastIndex' (S reads)
                    (lenses ++ [optimize_lens document index])%list
      end
  end.

(** [provideCodeLenses] *)
Definition provideCodeLenses (document : TextDocument) (token : CancellationToken)
  : LoopResult :=
  if token 0 then Returned None
  else scan (FunctionPattern.enough (getText document)) document token 0 1
            [analyze_lens].

End Providers.

(* ===================================================================== *)
(** ** Sequences of calls on one assistant object *)
(* ===================================================================== *)

Module Lifecycle.

Import Assistant Composer.

(** The five operations guarded by [ensureInitialized]. *)
Inductive Op :=
| op_generatePrompt
| op_analyzeCode
| op_suggestOptimization
| op_generateCompletion (position : Position)
| op_generateDocumentation.

(** What an operation hands back: a result record or its [content]. *)
Inductive OpValue :=
| ResultValue (r : WeaveAnalysisResult)
| ContentValue (v : Value).

Definition run_op (a : WeaveAssistant) (transport : Transport)
           (op : Op) (context : WeaveCodeContext) : M OpValue :=
  match op with
  | op_generatePrompt =>
      r <- generatePrompt a transport context ;; ret (ResultValue r)
  | op_analyzeCode =>
      r <- analyzeCode a transport context ;; ret (ResultValue r)
  | op_suggestOptimization =>
      r <- suggestOptimization a transport context ;; ret (ResultValue r)
  | op_generateCompletion position =>
      v <- generateCompletion a transport context position ;; ret (ContentValue v)
  | op_generateDocumentation =>
      v <- generateDocumentation a transport context ;; ret (ContentValue v)
  end.

(** The same operation with the guard taken away: the transport call on
    the operation's prompt pair. *)
Definition perform (a : WeaveAssistant) (transport : Transport)
           (op : Op) (context : WeaveCodeContext) : M OpValue :=
  match op with
  | op_generatePrompt =>
      r <- callWeaveAPI a transport generatePrompt_systemPrompt
             (generatePrompt_userPrompt context) analysis context ;;
      ret (ResultValue r)
  | op_analyzeCode =>
      r <- callWeaveAPI a transport analyzeCode_systemPrompt
             (analyzeCode_userPrompt context) analysis context ;;
      ret (ResultValue r)
  | op_suggestOptimization =>
      r <- callWeaveAPI a transport suggestOptimization_systemPrompt
             (suggestOptimization_userPrompt context) suggestion context ;;
      ret (ResultValue r)
  | op_generateCompletion position =>
      r <- callWeaveAPI a transport generateCompletion_systemPrompt
             (generateCompletion_userPrompt context position) completion context ;;
      ret (ContentValue (content r))
  | op_generateDocumentation =>
      r <- callWeaveAPI a transport generateDocumentation_systemPrompt
             (generateDocumentation_userPrompt context) analysis context ;;
      ret (ContentValue (content r))
  end.

(** Calls made on the object, in order. *)
Inductive Call :=
| call_op (transport : Transport) (op : Op) (context : WeaveCodeContext)
| call_dispose
| call_initialize.

Definition after_call (a : WeaveAssistant) (c : Call) : WeaveAssistant :=
  match c with
  | call_op _ _ _ => a
  | call_dispose => dispose a
  | call_initialize => fst (initialize a)
  end.

Definition after_calls (a : WeaveAssistant) (cs : list Call) : WeaveAssistant :=
  fold_left after_call cs a.

Definition returns {A} (m : M A) : bool :=
  match outcome m with
  | Returns _ => true
  | Throws _ => false
  end.

(** No call of the sequence, started in state [a], is an [initialize]
    that returns. *)
Fixpoint no_initialize_returns (a : WeaveAssistant) (cs : list Call) : bool :=
  match cs with
  | [] => true
  | c :: rest =>
      match c with
      | call_initialize => negb (returns (snd (initialize a)))
      | _ => true
      end && no_initialize_returns (after_call a c) rest
  end.

Definition not_initialized : Thrown :=
  ErrorInstance "WeaveAssistant not initialized".

End Lifecycle.

(* ===================================================================== *)
(** ** Observations on a trace of effects *)
(* ===================================================================== *)

Module Trace.

Definition is_panel (ev : Event) : bool :=
  match ev with
  | CreateWebviewPanel _ _ | SetWebviewHtml _ => true
  | _ => false
  end.

Definition is_error_message (ev : Event) : bool :=
  match ev with ShowErrorMessage _ => true | _ => false end.

(** A transport call: the POST of the HTTP variant, the timer that stands
    for it in the mock variant. *)
Definition is_transport_call (ev : Event) : bool :=
  match ev with HttpPost _ _ | SetTimeout _ => true | _ => false end.

Definition count (p : Event -> bool) (evs : list Event) : nat :=
  List.length (filter p evs).

(** The texts of the error messages shown, in order. *)
Fixpoint error_messages (evs : list Event) : list string :=
  match evs with
  | [] => []
  | ShowErrorMessage m :: rest => m :: error_messages rest
  | _ :: rest => error_messages rest
  end.

(** A command run that ended in one error message [text] and nothing
    rendered, after [calls] transport calls. *)
Definition reported (m : M unit) (calls : nat) (text : string) : Prop :=
  outcome m = Returns tt
  /\ count is_panel (events m) = 0
  /\ count is_transport_call (events m) = calls
  /\ error_messages (events m) = [text].

End Trace.

(** The response shape the interface description expects,
    [{content: string, ...}]: an object whose [content] is a string. *)
Definition has_string_content (data : Value) : bool :=
  match data with
  | Object fields =>
      match assoc "content" fields with
      | Str _ => true
      | _ => false
      end
  | _ => false
  end.

(* ===================================================================== *)
(** ** Sample inputs *)
(* ===================================================================== *)

Module Samples.

Definition two_lines : string := "const a = 1;
const b = a".

(** A document whose word under the cursor is [word]; offsets are mapped
    to positions on line 0. *)
Definition document_with (text word : string) : TextDocument :=
  {| languageId := "typescript";
     document_fileName := "sample.ts";
     getText := text;
     getTextIn := fun _ => word;
     getWordRangeAtPosition := fun p =>
       Some {| range_start := {| line := line p; character := 0 |};
               range_end := p |};
     positionAt := fun n => {| line := 0; character := n |} |}.

Definition context_two_lines : WeaveCodeContext :=
  {| code := two_lines; language := "typescript"; fileName := "sample.ts";
     ctx_line := 1; ctx_column := 11 |}.

Definition cursor_line_1 : Position := {| line := 1; character := 11 |}.

Definition settings : ConfigurationManager :=
  {| getApiKey := "sk-test"; getProvider := openai; getModel := "gpt-4";
     getTemperature := (7 # 10)%Q; getMaxTokens := 1000%Z |}.

Definition ready : Assistant.WeaveAssistant :=
  fst (Assistant.initialize (Assistant.new settings)).

(** An editor with the first 12 characters of line 0 selected. *)
Definition editor_with_selection : TextEditor :=
  {| document := document_with two_lines "const a = 1;";
     selection := {| range_start := {| line := 0; character := 0 |};
                     range_end := {| line := 0; character := 12 |} |} |}.

(** An editor whose selection is a bare cursor. *)
Definition editor_with_cursor : TextEditor :=
  {| document := document_with two_lines "";
     selection := {| range_start := {| line := 1; character := 4 |};
                     range_end := {| line := 1; character := 4 |} |} |}.

Definition never_cancelled : CancellationToken := fun _ => false.

Definition cancelled_from (k : nat) : CancellationToken := fun n => Nat.leb k n.

Definition exported : string := "export function foo() {}".

Definition usage_only : Value := Object [("tokensUsed", Number (42 # 1)%Q)].

Definition status_500 : Thrown := ErrorInstance "Request failed with status code 500".

Definition extension : Commands.Extension :=
  {| Commands.weaveAssistant := ready;
     Commands.commandHandler := {| Commands.inlineHintsEnabled := true |} |}.

(** The active editor holds a bare cursor; the endpoint would answer 500. *)
Definition environment_with_cursor : Commands.Environment :=
  {| Commands.activeTextEditor := Some editor_with_cursor;
     Commands.transport := HttpTransport (PostRejects status_500);
     Commands.pickedAction := None |}.

End Samples.

(* ===================================================================== *)
(** ** [ConfigurationManager] over the host's settings (configManager.ts) *)
(* ===================================================================== *)

Module Settings.

(** The [weave.*] section of the host's settings as one snapshot: a key
    the user has not set is [None]. *)
Record WorkspaceConfiguration := mkSettings {
  enabled : option bool;
  apiKey : option string;
  provider : option Provider;
  model : option string;
  inlineHints : option bool;
  temperature : option Q;
  maxTokens : option Z;
  enableCodeCompletion : option bool;
  enableCodeLens : option bool;
  languageScope : option (list string)
}.

(** [config.get<T>(key, defaultValue)] *)
Definition get {T} (value : option T) (defaultValue : T) : T :=
  match value with
  | Some v => v
  | None => defaultValue
  end.

Definition default_languageScope : list string :=
  ["typescript"; "javascript"; "python"].

Definition isEnabled (c : WorkspaceConfiguration) : bool := get (enabled c) true.
Definition getApiKey (c : WorkspaceConfiguration) : string := get (apiKey c) "".
Definition getProvider (c : WorkspaceConfiguration) : Provider :=
  get (provider c) openai.
Definition getModel (c : WorkspaceConfiguration) : string := get (model c) "gpt-4".
Definition getTemperature (c : WorkspaceConfiguration) : Q :=
  get (temperature c) (7 # 10)%Q.
Definition getMaxTokens (c : WorkspaceConfiguration) : Z :=
  get (maxTokens c) 1000%Z.
Definition inlineHintsEnabled (c : WorkspaceConfiguration) : bool :=
  get (inlineHints c) true.
Definition codeCompletionEnabled (c : WorkspaceConfiguration) : bool :=
  get (enableCodeCompletion c) true.
Definition codeLensEnabled (c : WorkspaceConfiguration) : bool :=
  get (enableCodeLens c) true.
Definition getLanguageScope (c : WorkspaceConfiguration) : list string :=
  get (languageScope c) default_languageScope.

(** [array.includes(x)] on strings. *)
Definition array_includes (a : list string) (x : string) : bool :=
  existsb (String.eqb x) a.

Definition isLanguageInScope (c : WorkspaceConfiguration) (languageId : string)
  : bool :=
  array_includes (getLanguageScope c) languageId.

(** What the assistant reads through the manager's getters. *)
Definition manager (c : WorkspaceConfiguration) : ConfigurationManager :=
  mkConfig (getApiKey c) (getProvider c) (getModel c)
           (getTemperature c) (getMaxTokens c).

(** Nothing set by the user. *)
Definition unset : WorkspaceConfiguration :=
  {| enabled := None; apiKey := None; provider := None; model := None;
     inlineHints := None; temperature := None; maxTokens := None;
     enableCodeCompletion := None; enableCodeLens := None;
     languageScope := None |}.

End Settings.

(* ===================================================================== *)
(** ** [StatusBarManager] (ui/statusBar.ts) *)
(* ===================================================================== *)

Module StatusBar.

(** The status bar item the manager owns. *)
Record StatusBarManager := mkStatusBar {
  text : string;
  color : option string;
  command : string;
  tooltip : string;
  shown : bool;
  disposed : bool
}.

Definition setLoading (b : StatusBarManager) : StatusBarManager :=
  {| text := "$(loading~spin) Weave Loading..."; color := color b;
     command := command b; tooltip := tooltip b;
     shown := shown b; disposed := disposed b |}.

(** [constructor()]: item created, command and tooltip set, loading, shown. *)
Definition new : StatusBarManager :=
  {| text := "$(loading~spin) Weave Loading..."; color := None;
     command := "weave.showDocumentation";
     tooltip := "Weave AI Assistant - Click for documentation";
     shown := true; disposed := false |}.

Definition setReady (b : StatusBarManager) : StatusBarManager :=
  {| text := "$(check) Weave Ready";
     color := Some "statusBarItem.remoteBackground";
     command := command b; tooltip := tooltip b;
     shown := shown b; disposed := disposed b |}.

Definition setActive (b : StatusBarManager) : StatusBarManager :=
  {| text := "$(lightbulb) Weave Active";
     color := Some "statusBarItem.warningBackground";
     command := command b; tooltip := tooltip b;
     shown := shown b; disposed := disposed b |}.

Definition setInactive (b : StatusBarManager) : StatusBarManager :=
  {| text := "$(circle-slash) Weave Inactive";
     color := Some "statusBarItem.prominentBackground";
     command := command b; tooltip := tooltip b;
     shown := shown b; disposed := disposed b |}.

Definition setText (b : StatusBarManager) (t : string) : StatusBarManager :=
  {| text := t; color := color b;
     command := command b; tooltip := tooltip b;
     shown := shown b; disposed := disposed b |}.

Definition dispose (b : StatusBarManager) : StatusBarManager :=
  {| text := text b; color := color b;
     command := command b; tooltip := tooltip b;
     shown := shown b; disposed := true |}.

End StatusBar.

(* ===================================================================== *)
(** ** [insertTemplate] and [showDocumentation] (commandHandler.ts) *)
(* ===================================================================== *)

Module Templates.

(** Host calls of these two commands besides the messages of [Event]. *)
Inductive HostCall :=
| ShowQuickPick (items : list string) (placeHolder : string)
| ShowWarningMessage (message : string) (items : list string)
| EditInsert (position : Position) (text : string)
| OpenExternal (url : string).

Definition Effect : Type := Event + HostCall.

Record Template := mkTemplate {
  label : string;
  template_language : string;
  template : string
}.

Definition basic_usage : Template :=
  {| label := "Basic Weave Usage";
     template_language := "typescript";
     template := "import { Weave } from '@weaveai/core';

const weave = await Weave.createAsync({
  provider: { type: 'openai', apiKey: process.env.OPENAI_API_KEY },
});

const result = await weave.generate('Write a hello world program');
console.log(result);" |}.

Definition classification : Template :=
  {| label := "Weave with Classification";
     template_language := "typescript";
     template := "const result = await weave.classify(
  'This is a great product!',
  ['positive', 'negative', 'neutral']
);
console.log(result.classification);" |}.

Definition extraction : Template :=
  {| label := "Weave with Extraction";
     template_language := "typescript";
     template := "const result = await weave.extract(
  'John Doe, age 30, from New York',
  {
    type: 'object',
    properties: {
      name: { type: 'string' },
      age: { type: 'number' },
      city: { type: 'string' },
    },
  }
);
console.log(result.data);" |}.

Definition templates : list Template :=
  [basic_usage; classification; extraction].

(** [templates.find((t) => t.label === selected)] *)
Definition find_template (selected : string) : option Template :=
  find (fun t => String.eqb (label t) selected) templates.

(** [insertTemplate()]: [active] is [editor.selection.active], [selected]
    the answer to the quick pick, [action] the answer to the warning. *)
Definition insertTemplate (activeTextEditor : option TextEditor)
           (active : Position) (selected action : option string) : list Effect :=
  match activeTextEditor with
  | None => [inl (ShowErrorMessage "No active editor")]
  | Some editor =>
      inr (ShowQuickPick (map label templates) "Select a template") ::
      match selected with
      | None => []
      | Some selected =>
          if negb (truthy (Str selected)) then []
          else
            match find_template selected with
            | None => []
            | Some template_ =>
                let insert :=
                  [inr (EditInsert active (template template_));
                   inl (ShowInformationMessage "Template inserted" [])] in
                if negb (String.eqb (template_language template_)
                                    (languageId (document editor)))
                then
                  inr (ShowWarningMessage
                         ("Template is for " ++ template_language template_
                          ++ ", current file is " ++ languageId (document editor))
                         ["Insert anyway"; "Cancel"]) ::
                  match action with
                  | Some a => if String.eqb a "Insert anyway" then insert else []
                  | None => []
                  end
                else insert
            end
      end
  end.

(** [showDocumentation()] *)
Definition showDocumentation : list Effect :=
  [inr (OpenExternal "https://github.com/kitium-ai/weave#readme")].

Definition is_insert (e : Effect) : bool :=
  match e with inr (EditInsert _ _) => true | _ => false end.

Definition is_warning (e : Effect) : bool :=
  match e with inr (ShowWarningMessage _ _) => true | _ => false end.

End Templates.

(* ===================================================================== *)
(** ** Activation, listeners and deactivation (extension.ts) *)
(* ===================================================================== *)

Module Activation.

Import Assistant.

(** What is pushed on [context.subscriptions]. *)
Inductive Subscription :=
| CommandRegistration (command : string)
| CompletionItemProviderRegistration (language triggerCharacter : string)
| CodeLensProviderRegistration (language : string)
| ConfigurationListener
| ActiveTextEditorListener
| TextDocumentListener.

(** The module-level handles [weaveAssistant], [statusBarManager] and
    [commandHandler]; [None] is [null]. *)
Record Globals := mkGlobals {
  weaveAssistant : option WeaveAssistant;
  statusBarManager : option StatusBar.StatusBarManager;
  commandHandler : option Commands.CommandHandler
}.

Definition not_activated : Globals :=
  {| weaveAssistant := None; statusBarManager := None; commandHandler := None |}.

(** [new CommandHandler(...)]: the flag starts as [true]. *)
Definition new_CommandHandler : Commands.CommandHandler :=
  {| Commands.inlineHintsEnabled := true |}.

Definition registerCommands : list Subscription :=
  [CommandRegistration "weave.generatePrompt";
   CommandRegistration "weave.analyzeCode";
   CommandRegistration "weave.suggestOptimization";
   CommandRegistration "weave.showDocumentation";
   CommandRegistration "weave.insertWeaveTemplate";
   CommandRegistration "weave.toggleInlineHints"].

(** [registerProviders]: the settings are read from the host at this
    moment, the defaults being [true] and the three default languages. *)
Definition registerProviders (host : Settings.WorkspaceConfiguration)
  : list Subscription :=
  ((if Settings.get (Settings.enableCodeCompletion host) true then
      map (fun language => CompletionItemProviderRegistration language ".")
          (Settings.get (Settings.languageScope host)
                        Settings.default_languageScope)
    else [])
   ++
   (if Settings.get (Settings.enableCodeLens host) true then
      map CodeLensProviderRegistration
          (Settings.get (Settings.languageScope host)
                        Settings.default_languageScope)
    else []))%list.

Definition registerEventListeners : list Subscription :=
  [ConfigurationListener; ActiveTextEditorListener; TextDocumentListener].

Record Activated := mkActivated {
  globals : Globals;
  subscriptions : list Subscription;
  shown : list Event
}.

(** [activate(context)] with the host's settings as they are then. *)
Definition activate (host : Settings.WorkspaceConfiguration) : Activated :=
  let config := Settings.manager host in
  let bar := StatusBar.new in
  let (assistant, initialized) := initialize (Assistant.new config) in
  match outcome initialized with
  | Returns _ =>
      {| globals :=
           {| weaveAssistant := Some assistant;
              statusBarManager := Some (StatusBar.setReady bar);
              commandHandler := Some new_CommandHandler |};
         subscriptions :=
           (registerCommands ++ registerProviders host
            ++ registerEventListeners)%list;
         shown :=
           (LogInfo "Weave AI Assistant is activating..."
            :: events initialized
            ++ [LogInfo "Weave AI Assistant activated successfully"])%list |}
  | Throws _ =>
      {| globals :=
           {| weaveAssistant := Some assistant;
              statusBarManager := Some bar;
              commandHandler := None |};
         subscriptions := [];
         shown :=
           (LogInfo "Weave AI Assistant is activating..."
            :: events initialized
            ++ [LogError "Failed to activate Weave AI Assistant:";
                ShowErrorMessage "Failed to initialize Weave AI Assistant"])%list |}
  end.

(** [deactivate()] *)
Definition deactivate (g : Globals) : Globals * list Event :=
  ({| weaveAssistant := option_map dispose (weaveAssistant g);
      statusBarManager := option_map StatusBar.dispose (statusBarManager g);
      commandHandler := commandHandler g |},
   [LogInfo "Weave AI Assistant is deactivating..."]).

(** The configuration listener: [config.reload()] on the manager, which
    the assistant holds too, so the assistant reads the new settings. *)
Definition onDidChangeConfiguration (g : Globals) (affectsWeave : bool)
           (host : Settings.WorkspaceConfiguration) : Globals * list Event :=
  if affectsWeave then
    ({| weaveAssistant :=
          option_map (fun a => {| config := Settings.manager host;
                                  isInitialized := isInitialized a |})
                     (weaveAssistant g);
        statusBarManager := statusBarManager g;
        commandHandler := commandHandler g |},
     [ShowInformationMessage "Weave configuration updated" []])
  else (g, []).

(** The active-editor listener; the language scope is read from the host
    at the moment of the event. *)
Definition onDidChangeActiveTextEditor (g : Globals)
           (host : Settings.WorkspaceConfiguration) (editor : option TextEditor)
  : Globals :=
  match editor, weaveAssistant g with
  | Some editor, Some _ =>
      let languages := Settings.get (Settings.languageScope host)
                                    Settings.default_languageScope in
      {| weaveAssistant := weaveAssistant g;
         statusBarManager :=
           option_map
             (if Settings.array_includes languages (languageId (document editor))
              then StatusBar.setActive else StatusBar.setInactive)
             (statusBarManager g);
         commandHandler := commandHandler g |}
  | _, _ => g
  end.

Definition is_command (s : Subscription) : bool :=
  match s with CommandRegistration _ => true | _ => false end.

Definition is_completion_provider (s : Subscription) : bool :=
  match s with CompletionItemProviderRegistration _ _ => true | _ => false end.

Definition is_code_lens_provider (s : Subscription) : bool :=
  match s with CodeLensProviderRegistration _ => true | _ => false end.

End Activation.

(* ===================================================================== *)
(** ** Resolving items and lenses; spans of the pattern's matches *)
(* ===================================================================== *)

Module Resolve.

(** [resolveCompletionItem] and [resolveCodeLens]: [null] on cancellation,
    the item or lens itself otherwise. *)
Definition resolveCompletionItem (item : Providers.CompletionItem)
           (token : CancellationToken) : option Providers.CompletionItem :=
  if token 0 then None else Some item.

Definition resolveCodeLens (codeLens : Providers.CodeLens)
           (token : CancellationToken) : option Providers.CodeLens :=
  if token 0 then None else Some codeLens.

End Resolve.

Module Spans.

Import FunctionPattern.

(** The pattern matches at offset [i] of [text], over [len] characters,
    and a line starts there. *)
Definition matches_at (text : string) (i len : nat) : Prop :=
  line_start text i = true /\ match_here (drop i text) = Some len.

(** Each match of the list ends before the next one begins. *)
Fixpoint apart (text : string) (ms : list nat) : Prop :=
  match ms with
  | i :: (j :: _) as rest =>
      (exists len, match_here (drop i text) = Some len /\ i + len <= j)
      /\ apart text rest
  | _ => True
  end.

End Spans.

(* ===================================================================== *)
(** ** Facts about the string primitives *)
(* ===================================================================== *)

Section JsStringFacts.

Lemma append_assoc (a b c : string) : (a ++ b) ++ c = a ++ (b ++ c).
Proof. induction a as [|x a IH]; simpl; [reflexivity | now rewrite IH]. Qed.

Lemma append_nil_r (a : string) : a ++ "" = a.
Proof. induction a as [|x a IH]; simpl; [reflexivity | now rewrite IH]. Qed.

Lemma split_nl_nonempty (s : string) : split_nl s <> [].
Proof.
  induction s as [|c s IH]; simpl; [discriminate|].
  destruct (is_nl c); [discriminate|].
  destruct (split_nl s); discriminate.
Qed.

Lemma split_nl_no_nl (s : string) : no_nl s = true -> split_nl s = [s].
Proof.
  induction s as [|c s IH]; simpl; [reflexivity|].
  intros H. apply andb_true_iff in H as [Hc Hs].
  apply negb_true_iff in Hc. rewrite Hc, (IH Hs). reflexivity.
Qed.

Lemma split_nl_app_line (l rest : string) :
  no_nl l = true ->
  split_nl (l ++ nl ++ rest) = l :: split_nl rest.
Proof.
  induction l as [|c l IH]; simpl; intros H.
  - reflexivity.
  - apply andb_true_iff in H as [Hc Hl].
    apply negb_true_iff in Hc. rewrite Hc.
    simpl in IH. rewrite (IH Hl). reflexivity.
Qed.

(** [split] undoes [join] on a non-empty list of line-feed-free lines. *)
Lemma split_join_nl (ls : list string) :
  ls <> [] ->
  Forall (fun l => no_nl l = true) ls ->
  split_nl (join_nl ls) = ls.
Proof.
  induction ls as [|l ls IH]; intros Hne Hall; [congruence|].
  inversion Hall as [|? ? Hl Hls]; subst.
  destruct ls as [|l' ls'].
  - simpl. now apply split_nl_no_nl.
  - change (join_nl (l :: l' :: ls')) with (l ++ nl ++ join_nl (l' :: ls')).
    rewrite split_nl_app_line by assumption.
    rewrite IH; [reflexivity | discriminate | assumption].
Qed.

(** [join] undoes [split] on every string. *)
Lemma join_split_nl (s : string) : join_nl (split_nl s) = s.
Proof.
  induction s as [|c s IH]; simpl; [reflexivity|].
  destruct (is_nl c) eqn:Hc.
  - apply Ascii.eqb_eq in Hc. subst c.
    pose proof (split_nl_nonempty s) as Hne.
    destruct (split_nl s) as [|l ls] eqn:E; [congruence|].
    change (join_nl ("" :: l :: ls)) with ("" ++ nl ++ join_nl (l :: ls)).
    rewrite IH. reflexivity.
  - pose proof (split_nl_nonempty s) as Hne.
    destruct (split_nl s) as [|l ls] eqn:E; [congruence|].
    destruct ls as [|l' ls'].
    + simpl in *. now rewrite IH.
    + change (join_nl (String c l :: l' :: ls'))
        with (String c (l ++ nl ++ join_nl (l' :: ls'))).
      change (join_nl (l :: l' :: ls')) with (l ++ nl ++ join_nl (l' :: ls')) in IH.
      now rewrite IH.
Qed.

Lemma split_nl_lines (s : string) :
  Forall (fun l => no_nl l = true) (split_nl s).
Proof.
  induction s as [|c s IH]; simpl.
  - constructor; [reflexivity | constructor].
  - destruct (is_nl c) eqn:Hc.
    + constructor; [reflexivity | exact IH].
    + pose proof (split_nl_nonempty s) as Hne.
      destruct (split_nl s) as [|l ls]; [congruence|].
      inversion IH; subst. constructor; [|assumption].
      simpl. now rewrite Hc.
Qed.

Lemma prefix_app (s t : string) : String.prefix s (s ++ t) = true.
Proof.
  induction s as [|c s IH]; simpl; [now destruct t|].
  destruct (ascii_dec c c); [exact IH | congruence].
Qed.

Lemma prefix_true_app (s t : string) :
  String.prefix s t = true -> exists post, t = s ++ post.
Proof.
  revert t. induction s as [|c s IH]; intros t H.
  - exists t. reflexivity.
  - destruct t as [|d t]; simpl in H; [discriminate|].
    destruct (ascii_dec c d) as [->|]; [|discriminate].
    destruct (IH _ H) as [post ->]. exists post. reflexivity.
Qed.

(** The program [includes] decides the proposition [Includes]. *)
Lemma includes_spec (s t : string) : includes s t = true <-> Includes s t.
Proof.
  split.
  - induction t as [|d t IH]; cbn [includes]; intros H.
    + apply orb_true_iff in H as [H|H]; [|discriminate].
      apply prefix_true_app in H as [post E]. exists "", post. exact E.
    + apply orb_true_iff in H as [H|H].
      * apply prefix_true_app in H as [post E]. exists "", post. exact E.
      * destruct (IH H) as (pre & post & ->).
        exists (String d pre), post. reflexivity.
  - intros (pre & post & ->).
    induction pre as [|d pre IH].
    + change ("" ++ s ++ post) with (s ++ post).
      destruct (s ++ post) eqn:E; cbn [includes]; rewrite <- E, prefix_app; reflexivity.
    + change (String d pre ++ s ++ post) with (String d (pre ++ s ++ post)).
      cbn [includes]. rewrite IH. apply orb_true_r.
Qed.

Lemma not_includes (s t : string) : includes s t = false -> ~ Includes s t.
Proof.
  intros H HI. apply includes_spec in HI. congruence.
Qed.

End JsStringFacts.

(* ===================================================================== *)
(** ** The request composer *)
(* ===================================================================== *)

Section ComposerFacts.

Import Composer.

Lemma firstn_length_app {A} (xs ys : list A) :
  firstn (List.length xs) (xs ++ ys)%list = xs.
Proof.
  induction xs as [|x xs IH]; simpl; [reflexivity | now rewrite IH].
Qed.

(** The completion prompt, written out from the language tag and the text
    in front of the cursor line. *)
Lemma generateCompletion_userPrompt_shape context position :
  generateCompletion_userPrompt context position =
  "Complete this " ++ language context ++ " code based on context:

" ++ fence_open (language context) ++ previousLines context position ++ nl ++
  "|CURSOR_HERE|" ++ fence_close ++ "

Provide a natural completion that fits the code style and logic.".
Proof.
  unfold generateCompletion_userPrompt, fence_open, fence_close.
  rewrite !append_assoc. reflexivity.
Qed.

(** The lines in front of the cursor line, for a text given line by line. *)
Lemma previousLines_joined (before after : list string) lang file l c ch :
  Forall (fun x => no_nl x = true) (before ++ after)%list ->
  previousLines
    {| code := join_nl (before ++ after); language := lang; fileName := file;
       ctx_line := l; ctx_column := c |}
    {| line := List.length before; character := ch |}
  = join_nl before.
Proof.
  intros Hall. unfold previousLines, slice0. simpl.
  destruct (before ++ after)%list as [|x xs] eqn:E.
  - destruct before; [reflexivity | discriminate].
  - rewrite split_join_nl; [| discriminate | exact Hall].
    rewrite <- E. now rewrite firstn_length_app.
Qed.

(** When the cursor line lies behind the last line, all of the code is in
    front of it. *)
Lemma previousLines_all context position :
  List.length (split_nl (code context)) <= line position ->
  previousLines context position = code context.
Proof.
  intros H. unfold previousLines, slice0.
  rewrite firstn_all2 by exact H. apply join_split_nl.
Qed.

(** C1 (as amended): the prompts of generate-prompt, analyze and
    suggest-optimization contain the context's code verbatim, between a
    fence line made of three backquotes and the language tag and a closing
    fence; the prompt of complete holds, in a fence opened the same way, the
    lines in front of the cursor line and then the cursor marker line. *)
Theorem compose_fences_code (context : WeaveCodeContext) (position : Position) :
  Includes (fenced (language context) (code context))
           (userPrompt GeneratePrompt context)
  /\ Includes (fenced (language context) (code context))
              (userPrompt AnalyzeCode context)
  /\ Includes (fenced (language context) (code context))
              (userPrompt SuggestOptimization context)
  /\ Includes (fenced (language context)
                      (join_nl (firstn (line position) (split_nl (code context)))
                       ++ nl ++ "|CURSOR_HERE|"))
              (userPrompt (Complete position) context).
Proof.
  unfold userPrompt, compose, fenced, fence_open, fence_close, snd.
  repeat split.
  - exists ("Analyze this " ++ language context
            ++ " code and generate an optimized prompt that describes it:

"), ("

Generate a prompt that:
1. Clearly describes what the code does
2. Mentions key inputs and outputs
3. Includes any important constraints or edge cases
4. Is concise but complete").
    unfold generatePrompt_userPrompt. rewrite !append_assoc. reflexivity.
  - exists ("Analyze this " ++ language context ++ " code:

"), ("

Provide analysis including:
1. Code quality assessment
2. Potential bugs or issues
3. Performance considerations
4. Readability and maintainability
5. Best practice recommendations").
    unfold analyzeCode_userPrompt. rewrite !append_assoc. reflexivity.
  - exists ("Suggest optimizations for this " ++ language context ++ " code:

"), ("

For each suggestion:
1. Explain the current inefficiency
2. Provide the optimized approach
3. Show a code example if applicable
4. Estimate the performance improvement if measurable").
    unfold suggestOptimization_userPrompt. rewrite !append_assoc. reflexivity.
  - exists ("Complete this " ++ language context ++ " code based on context:

"), ("

Provide a natural completion that fits the code style and logic.").
    unfold generateCompletion_userPrompt, previousLines, slice0.
    rewrite !append_assoc. reflexivity.
Qed.

(** C1 (as stated) fails for complete: with the cursor on the second of two
    lines, the prompt holds the first line only; the context's code is not
    in it, fenced or not. *)
Lemma complete_prompt_lacks_code :
  ~ Includes (code Samples.context_two_lines)
             (userPrompt (Complete Samples.cursor_line_1) Samples.context_two_lines)
  /\ ~ Includes (fenced (language Samples.context_two_lines)
                        (code Samples.context_two_lines))
                (userPrompt (Complete Samples.cursor_line_1)
                            Samples.context_two_lines).
Proof.
  split; apply not_includes; vm_compute; reflexivity.
Qed.

(** Two contexts with one language tag whose codes agree in front of the
    cursor line get the same completion prompt. *)
Lemma complete_prompt_depends_on_prefix context context' position :
  language context = language context' ->
  firstn (line position) (split_nl (code context))
  = firstn (line position) (split_nl (code context')) ->
  userPrompt (Complete position) context
  = userPrompt (Complete position) context'.
Proof.
  intros Hlang Hlines. unfold userPrompt, compose; simpl.
  unfold generateCompletion_userPrompt, previousLines, slice0.
  now rewrite Hlang, Hlines.
Qed.

(** C2: the completion prompt is built from the language tag and the lines
    in front of the cursor line alone.  For a text given line by line, with
    the cursor on the line behind [before], the prompt is the template
    filled with [before], whatever the lines [after] are; two texts that
    agree in front of the cursor line give the same prompt. *)
Theorem complete_prompt_no_lookahead
        (lang file : string) (before after after' : list string)
        (l c ch : nat) :
  Forall (fun x => no_nl x = true) (before ++ after)%list ->
  Forall (fun x => no_nl x = true) (before ++ after')%list ->
  let position := {| line := List.length before; character := ch |} in
  let context := {| code := join_nl (before ++ after); language := lang;
                    fileName := file; ctx_line := l; ctx_column := c |} in
  let context' := {| code := join_nl (before ++ after'); language := lang;
                     fileName := file; ctx_line := l; ctx_column := c |} in
  userPrompt (Complete position) context =
    "Complete this " ++ lang ++ " code based on context:

" ++ fence_open lang ++ join_nl before ++ nl ++ "|CURSOR_HERE|" ++ fence_close ++ "

Provide a natural completion that fits the code style and logic."
  /\ userPrompt (Complete position) context
     = userPrompt (Complete position) context'.
Proof.
  intros H H' position context context'.
  unfold userPrompt, compose; simpl.
  rewrite !generateCompletion_userPrompt_shape.
  unfold position, context, context'.
  rewrite !previousLines_joined by assumption.
  split; reflexivity.
Qed.

Lemma complete_prompt_no_lookahead_witness :
  Composer.userPrompt
    (Complete {| line := 1; character := 11 |})
    {| code := join_nl (["const a = 1;"] ++ ["const b = a"; "secret()"]);
       language := "typescript"; fileName := "sample.ts";
       ctx_line := 1; ctx_column := 11 |}
  = Composer.userPrompt
      (Complete {| line := 1; character := 11 |})
      {| code := join_nl (["const a = 1;"] ++ []);
         language := "typescript"; fileName := "sample.ts";
         ctx_line := 1; ctx_column := 11 |}.
Proof.
  apply (complete_prompt_no_lookahead "typescript" "sample.ts"
           ["const a = 1;"] ["const b = a"; "secret()"] [] 1 11 11).
  - repeat constructor.
  - repeat constructor.
Defined.

End ComposerFacts.

(* ===================================================================== *)
(** ** The transport client *)
(* ===================================================================== *)

Section TransportFacts.

Import Assistant.

Variable a : WeaveAssistant.
Variables systemPrompt userPrompt : string.
Variable resultType : ResultType.
Variable context : WeaveCodeContext.

Local Abbreviation send reply :=
  (callWeaveAPI a (HttpTransport reply) systemPrompt userPrompt resultType context).

Lemma send_rejected error : outcome (send (PostRejects error)) = Throws error.
Proof. reflexivity. Qed.

Lemma send_object fields :
  outcome (send (PostResolves (Object fields))) =
  Returns
    {| type := resultType;
       content := or_else (assoc "content" fields) (Str "");
       result_language := language context;
       details := Some
         {| tokensUsed := or_else (assoc "tokensUsed" fields) (Number 0%Q);
            cost := or_else (assoc "cost" fields) (Number 0%Q);
            details_provider :=
              or_else (assoc "provider" fields)
                      (Str (provider_name (getProvider (config a))));
            details_model :=
              or_else (assoc "model" fields) (Str (getModel (config a))) |} |}.
Proof. reflexivity. Qed.

(** One request per invocation, however the call settles. *)
Lemma send_once reply :
  Trace.count Trace.is_transport_call (events (send reply)) = 1.
Proof.
  destruct reply as [error | data]; [reflexivity|].
  destruct data; reflexivity.
Qed.

(** C3 (as amended): [send] fails when the client's [post] rejects, with
    the client's error unchanged, and when the response data is [undefined]
    or [null]; a response object yields a result whose content is the
    object's [content] field when that is truthy and the empty string
    otherwise, so a body without a [content] field gives a successful
    result with empty content. *)
Theorem send_fails_or_defaults :
  (forall error, outcome (send (PostRejects error)) = Throws error)
  /\ outcome (send (PostResolves Undefined))
     = Throws (ErrorInstance
                 "Cannot read properties of undefined (reading 'tokensUsed')")
  /\ outcome (send (PostResolves Null))
     = Throws (ErrorInstance
                 "Cannot read properties of null (reading 'tokensUsed')")
  /\ (forall fields,
        exists result,
          outcome (send (PostResolves (Object fields))) = Returns result
          /\ content result =
             (if truthy (assoc "content" fields)
              then assoc "content" fields else Str ""))
  /\ (forall reply,
        Trace.count Trace.is_transport_call (events (send reply)) = 1).
Proof.
  split; [|split; [|split; [|split]]].
  - apply send_rejected.
  - reflexivity.
  - reflexivity.
  - intros fields. eexists. split; [apply send_object | reflexivity].
  - apply send_once.
Qed.

End TransportFacts.

(** C3 (as stated) fails: a response body that carries usage figures and no
    [content] field is not of the expected shape, and [send] returns a
    result, with empty content, instead of failing. *)
Lemma send_accepts_body_without_content :
  has_string_content Samples.usage_only = false
  /\ exists result,
       outcome (Assistant.callWeaveAPI Samples.ready
                  (HttpTransport (PostResolves Samples.usage_only))
                  Composer.analyzeCode_systemPrompt
                  (Composer.analyzeCode_userPrompt Samples.context_two_lines)
                  analysis Samples.context_two_lines)
       = Returns result
       /\ content result = Str "".
Proof.
  split; [reflexivity|].
  eexists. split; reflexivity.
Qed.

(* ===================================================================== *)
(** ** The command boundary *)
(* ===================================================================== *)

Section CommandFacts.

Import Assistant Commands.

(** C6: with an active editor whose selection is empty, each of
    generate-prompt, analyze and suggest-optimization leaves the objects of
    the extension as they were and has one effect, the error message that
    asks for a selection: no transport call, no panel. *)
Theorem empty_selection_aborts
        (st : Extension) (env : Environment) (editor : TextEditor) :
  activeTextEditor env = Some editor ->
  isEmpty (selection editor) = true ->
  invoke st weave_generatePrompt env
  = (st, ([ShowErrorMessage "Please select code to generate a prompt for"],
          Returns tt))
  /\ invoke st weave_analyzeCode env
     = (st, ([ShowErrorMessage "Please select code to analyze"], Returns tt))
  /\ invoke st weave_suggestOptimization env
     = (st, ([ShowErrorMessage "Please select code to optimize"], Returns tt)).
Proof.
  intros Hed Hsel.
  unfold invoke, generatePrompt, analyzeCode, suggestOptimization.
  rewrite Hed, Hsel. split; [|split]; reflexivity.
Qed.

Lemma empty_selection_aborts_witness :
  invoke Samples.extension weave_analyzeCode Samples.environment_with_cursor
  = (Samples.extension,
     ([ShowErrorMessage "Please select code to analyze"], Returns tt)).
Proof.
  apply (empty_selection_aborts Samples.extension
           Samples.environment_with_cursor Samples.editor_with_cursor);
    reflexivity.
Defined.

Lemma toggle_twice (h : CommandHandler) :
  fst (toggleInlineHints (fst (toggleInlineHints h))) = h.
Proof.
  destruct h as [b]. unfold toggleInlineHints; simpl.
  now rewrite negb_involutive.
Qed.

Lemma toggle_times_add (n m : nat) (h : CommandHandler) :
  toggle_times (n + m) h = toggle_times m (toggle_times n h).
Proof.
  revert h. induction n as [|n IH]; intros h; simpl; [reflexivity | apply IH].
Qed.

Lemma toggle_times_even (n : nat) (h : CommandHandler) :
  toggle_times (2 * n) h = h.
Proof.
  induction n as [|n IH]; [reflexivity|].
  replace (2 * S n) with (2 * n + 2) by lia.
  rewrite toggle_times_add, IH. simpl. apply toggle_twice.
Qed.

(** C9: two invocations of toggle-inline-hints give back the handler's
    flag, and so does every even number of invocations; one invocation
    negates the flag. *)
Theorem toggle_involution (st : Extension) (env env' : Environment) (n : nat) :
  fst (invoke (fst (invoke st weave_toggleInlineHints env))
              weave_toggleInlineHints env') = st
  /\ inlineHintsEnabled (toggle_times (2 * n) (commandHandler st))
     = inlineHintsEnabled (commandHandler st)
  /\ inlineHintsEnabled (fst (toggleInlineHints (commandHandler st)))
     = negb (inlineHintsEnabled (commandHandler st)).
Proof.
  split; [|split].
  - destruct st as [assistant [b]]. unfold invoke; simpl.
    now rewrite negb_involutive.
  - now rewrite toggle_times_even.
  - reflexivity.
Qed.

End CommandFacts.

(* ===================================================================== *)
(** ** Failures at the command boundary *)
(* ===================================================================== *)

Section FailureFacts.

Import Assistant Commands Trace.

Lemma bind_ret_l {A B} (x : A) (f : A -> M B) : bind (ret x) f = f x.
Proof. unfold bind, ret. now destruct (f x). Qed.

Lemma bind_throws {A B} (m : M A) (f : A -> M B) (e : Thrown) :
  outcome m = Throws e -> bind m f = (events m, Throws e).
Proof. destruct m as [t [x|e']]; simpl; intros H; congruence. Qed.

Lemma count_app p (xs ys : list Event) :
  count p (xs ++ ys)%list = count p xs + count p ys.
Proof. unfold count. now rewrite filter_app, length_app. Qed.

Lemma error_messages_app (xs ys : list Event) :
  error_messages (xs ++ ys)%list = (error_messages xs ++ error_messages ys)%list.
Proof.
  induction xs as [|ev xs IH]; simpl; [reflexivity|].
  destruct ev; simpl; now rewrite ?IH.
Qed.

(** What a transport call shows: a progress notification, one request, log
    lines; no panel and no error message. *)
Lemma callWeaveAPI_events a transport systemPrompt userPrompt ty context :
  let evs := events (callWeaveAPI a transport systemPrompt userPrompt ty context) in
  count is_panel evs = 0
  /\ count is_transport_call evs = 1
  /\ error_messages evs = [].
Proof.
  destruct transport as [|[error|data]]; [| |destruct data];
    repeat split; reflexivity.
Qed.

(** Whether the transport call fails does not depend on the prompts. *)
Lemma transport_fails_uniform a transport systemPrompt userPrompt ty context e :
  outcome (callWeaveAPI a transport systemPrompt userPrompt ty context) = Throws e ->
  transport_fails a transport context e.
Proof.
  intros H s u t. revert H.
  destruct transport as [|[error|data]]; [| |destruct data];
    simpl; intros H; try discriminate; exact H.
Qed.

Lemma guarded_call {A} (a : WeaveAssistant) (m : M A) :
  isInitialized a = true -> bind (ensureInitialized a) (fun _ => m) = m.
Proof.
  intros H. unfold ensureInitialized. rewrite H.
  exact (bind_ret_l tt (fun _ => m)).
Qed.

(** A failed awaited call inside [try { ... } catch] of a command: the
    effects of the call, then the error message. *)
Lemma failure_is_reported {A} (call : M A) (k : A -> M unit) (prefix : string) e :
  outcome call = Throws e ->
  count is_panel (events call) = 0 ->
  error_messages (events call) = [] ->
  reported
    (try_catch (bind call k)
       (fun error => emit (ShowErrorMessage (prefix ++ error_text error))))
    (count is_transport_call (events call))
    (prefix ++ error_text e).
Proof.
  intros Hthrow Hpanel Herr.
  rewrite (bind_throws call k e Hthrow).
  destruct call as [t o]. unfold outcome, events in *. simpl in *.
  unfold reported, outcome, events; simpl.
  rewrite !count_app, error_messages_app, Hpanel, Herr.
  split; [reflexivity|]. split; [reflexivity|]. split; [|reflexivity].
  unfold count at 2; simpl. lia.
Qed.

(** C7 (as amended): when the transport call of generate-prompt, analyze
    or suggest-optimization fails, the command makes that one call, renders
    no panel and shows one error message; the message ends with the
    failure's [message] when the failure is an [Error] instance, and with
    the fixed text "Unknown error" when it is any other thrown value. *)
Theorem transport_failure_reported
        (a : WeaveAssistant) (transport : Transport) (editor : TextEditor)
        (action : option string) (e : Thrown) :
  isInitialized a = true ->
  isEmpty (selection editor) = false ->
  transport_fails a transport (context_of editor) e ->
  reported (generatePrompt a transport (Some editor) action) 1
           ("Failed to generate prompt: " ++ error_text e)
  /\ reported (analyzeCode a transport (Some editor)) 1
              ("Failed to analyze code: " ++ error_text e)
  /\ reported (suggestOptimization a transport (Some editor)) 1
              ("Failed to get suggestions: " ++ error_text e)
  /\ error_text e = match e with
                    | ErrorInstance message => message
                    | NonError _ => "Unknown error"
                    end.
Proof.
  intros Hinit Hsel Hfail.
  unfold generatePrompt, analyzeCode, suggestOptimization.
  rewrite Hsel.
  unfold Assistant.generatePrompt, Assistant.analyzeCode,
    Assistant.suggestOptimization.
  rewrite !(guarded_call a _ Hinit).
  split; [|split; [|split]].
  - destruct (callWeaveAPI_events a transport
                Composer.generatePrompt_systemPrompt
                (Composer.generatePrompt_userPrompt (context_of editor))
                analysis (context_of editor)) as (Hp & Hc & He).
    rewrite <- Hc. apply failure_is_reported; [apply Hfail | exact Hp | exact He].
  - destruct (callWeaveAPI_events a transport
                Composer.analyzeCode_systemPrompt
                (Composer.analyzeCode_userPrompt (context_of editor))
                analysis (context_of editor)) as (Hp & Hc & He).
    rewrite <- Hc. apply failure_is_reported; [apply Hfail | exact Hp | exact He].
  - destruct (callWeaveAPI_events a transport
                Composer.suggestOptimization_systemPrompt
                (Composer.suggestOptimization_userPrompt (context_of editor))
                suggestion (context_of editor)) as (Hp & Hc & He).
    rewrite <- Hc. apply failure_is_reported; [apply Hfail | exact Hp | exact He].
  - destruct e; reflexivity.
Qed.

Lemma transport_failure_reported_witness :
  reported (analyzeCode Samples.ready
              (HttpTransport (PostRejects Samples.status_500))
              (Some Samples.editor_with_selection)) 1
           ("Failed to analyze code: " ++ error_text Samples.status_500).
Proof.
  apply (transport_failure_reported Samples.ready
           (HttpTransport (PostRejects Samples.status_500))
           Samples.editor_with_selection None Samples.status_500).
  - reflexivity.
  - reflexivity.
  - intros s u t. reflexivity.
Defined.

(** C7 (as stated) fails: a rejection with a value that is no [Error]
    instance, here the string "ECONNREFUSED", gives the one message
    "Failed to analyze code: Unknown error", which does not contain the
    reason. *)
Lemma rejection_reason_not_shown :
  error_messages
    (events (analyzeCode Samples.ready
               (HttpTransport (PostRejects (NonError (Str "ECONNREFUSED"))))
               (Some Samples.editor_with_selection)))
  = ["Failed to analyze code: Unknown error"]
  /\ ~ Includes "ECONNREFUSED" "Failed to analyze code: Unknown error".
Proof.
  split; [reflexivity|].
  apply not_includes. reflexivity.
Qed.

End FailureFacts.

(* ===================================================================== *)
(** ** Initialization state of the assistant *)
(* ===================================================================== *)

Section LifecycleFacts.

Import Assistant Lifecycle.

Lemma run_op_uninitialized a transport op context :
  isInitialized a = false ->
  run_op a transport op context = throw not_initialized.
Proof.
  intros H.
  destruct op; unfold run_op, generatePrompt, analyzeCode, suggestOptimization,
    generateCompletion, generateDocumentation, ensureInitialized;
    rewrite H; reflexivity.
Qed.

Lemma run_op_initialized a transport op context :
  isInitialized a = true ->
  run_op a transport op context = perform a transport op context.
Proof.
  intros H.
  destruct op; unfold run_op, perform, generatePrompt, analyzeCode,
    suggestOptimization, generateCompletion, generateDocumentation;
    rewrite (guarded_call a _ H); try reflexivity;
    match goal with
    | |- context [callWeaveAPI ?x ?t ?s ?u ?k ?c] =>
        destruct (callWeaveAPI x t s u k c) as [evs [r|e]]
    end; simpl; rewrite ?app_nil_r; reflexivity.
Qed.

Lemma initialize_returns a :
  returns (snd (initialize a)) = true ->
  isInitialized (fst (initialize a)) = true.
Proof.
  unfold initialize.
  destruct (negb (truthy (Str (getApiKey (config a))))
            && negb (is_local (getProvider (config a)))); simpl.
  - discriminate.
  - reflexivity.
Qed.

Lemma initialize_throws a :
  returns (snd (initialize a)) = false -> fst (initialize a) = a.
Proof.
  unfold initialize.
  destruct (negb (truthy (Str (getApiKey (config a))))
            && negb (is_local (getProvider (config a)))); simpl.
  - reflexivity.
  - discriminate.
Qed.

(** Without an [initialize] that returns, an object that is not
    initialized stays so. *)
Lemma stays_uninitialized (cs : list Call) : forall a,
  isInitialized a = false ->
  no_initialize_returns a cs = true ->
  isInitialized (after_calls a cs) = false.
Proof.
  induction cs as [|c cs IH]; intros a Ha Hcs; [exact Ha|].
  simpl in Hcs. apply andb_true_iff in Hcs as [Hc Hrest].
  unfold after_calls; simpl. apply IH; [|exact Hrest].
  destruct c; simpl; try assumption; try reflexivity.
  apply negb_true_iff in Hc. now rewrite initialize_throws.
Qed.

(** C10: after [dispose], each of the five operations throws
    "WeaveAssistant not initialized", without any effect, and keeps doing so
    through further operations, disposals and failing initializations, up to
    an [initialize] that returns; after an [initialize] that returns, each
    operation is again its transport call. *)
Theorem dispose_uninitializes
        (a : WeaveAssistant) (cs : list Call)
        (transport : Transport) (op : Op) (context : WeaveCodeContext) :
  (no_initialize_returns (dispose a) cs = true ->
   run_op (after_calls (dispose a) cs) transport op context
   = ([], Throws (ErrorInstance "WeaveAssistant not initialized")))
  /\ (returns (snd (initialize (after_calls (dispose a) cs))) = true ->
      run_op (fst (initialize (after_calls (dispose a) cs))) transport op context
      = perform (fst (initialize (after_calls (dispose a) cs)))
                transport op context).
Proof.
  split.
  - intros Hcs. apply run_op_uninitialized.
    apply stays_uninitialized; [reflexivity | exact Hcs].
  - intros Hinit. apply run_op_initialized. now apply initialize_returns.
Qed.

Lemma dispose_uninitializes_witness :
  run_op (after_calls (dispose Samples.ready)
            [call_op MockTransport op_analyzeCode Samples.context_two_lines;
             call_dispose])
         MockTransport (op_generateCompletion Samples.cursor_line_1)
         Samples.context_two_lines
  = ([], Throws (ErrorInstance "WeaveAssistant not initialized"))
  /\ run_op (fst (initialize (after_calls (dispose Samples.ready) [])))
            MockTransport op_analyzeCode Samples.context_two_lines
     = perform (fst (initialize (after_calls (dispose Samples.ready) [])))
               MockTransport op_analyzeCode Samples.context_two_lines.
Proof.
  split.
  - apply (proj1 (dispose_uninitializes Samples.ready
                    [call_op MockTransport op_analyzeCode Samples.context_two_lines;
                     call_dispose]
                    MockTransport (op_generateCompletion Samples.cursor_line_1)
                    Samples.context_two_lines)).
    reflexivity.
  - apply (proj2 (dispose_uninitializes Samples.ready []
                    MockTransport op_analyzeCode Samples.context_two_lines)).
    reflexivity.
Defined.

End LifecycleFacts.

(* ===================================================================== *)
(** ** The function pattern: every match is non-empty, the loop ends *)
(* ===================================================================== *)

Section PatternFacts.

Import FunctionPattern.

Lemma strip_literal_length (lit s r : string) :
  strip_literal lit s = Some r ->
  String.length s = String.length lit + String.length r.
Proof.
  revert s. induction lit as [|x lit IH]; intros s H.
  - simpl in H. injection H as ->. reflexivity.
  - destruct s as [|y s]; simpl in H; [discriminate|].
    destruct (Ascii.eqb x y); [|discriminate].
    simpl. now rewrite (IH _ H).
Qed.

Lemma run_length p (s : string) :
  String.length s = fst (run p s) + String.length (snd (run p s)).
Proof.
  induction s as [|c s IH]; simpl; [reflexivity|].
  destruct (p c); [|reflexivity].
  destruct (run p s) as [n r]. simpl in *. now rewrite IH.
Qed.

Lemma plus_length p (s r : string) (n : nat) :
  plus p s = Some (n, r) -> 0 < n /\ String.length s = n + String.length r.
Proof.
  unfold plus. pose proof (run_length p s) as L.
  destruct (run p s) as [[|m] r']; [discriminate|].
  intros H. injection H as <- <-. simpl in L. split; [lia | exact L].
Qed.

Lemma keyword_length (s r : string) (k : nat) :
  keyword s = Some (k, r) -> 0 < k /\ String.length s = k + String.length r.
Proof.
  unfold keyword.
  destruct (strip_literal "function" s) as [r1|] eqn:E1.
  - intros H. injection H as <- <-.
    apply strip_literal_length in E1. simpl in E1. split; [lia | exact E1].
  - destruct (strip_literal "class" s) as [r2|] eqn:E2; [|discriminate].
    intros H. injection H as <- <-.
    apply strip_literal_length in E2. simpl in E2. split; [lia | exact E2].
Qed.

Lemma declaration_length (s : string) (n : nat) :
  declaration s = Some n -> 0 < n <= String.length s.
Proof.
  unfold declaration.
  destruct (keyword s) as [[k r1]|] eqn:K; [|discriminate].
  destruct (plus is_space r1) as [[n1 r2]|] eqn:P1; [|discriminate].
  destruct (plus is_word r2) as [[n2 r3]|] eqn:P2; [|discriminate].
  intros H. injection H as <-.
  apply keyword_length in K. apply plus_length in P1. apply plus_length in P2.
  lia.
Qed.

Lemma match_here_length (s : string) (n : nat) :
  match_here s = Some n -> 0 < n <= String.length s.
Proof.
  unfold match_here.
  destruct (strip_literal "async" s) as [r|] eqn:A;
    [|apply declaration_length].
  destruct (plus is_space r) as [[n1 r']|] eqn:P; [|apply declaration_length].
  destruct (declaration r') as [m|] eqn:D; [|apply declaration_length].
  intros H. injection H as <-.
  apply strip_literal_length in A. apply plus_length in P.
  apply declaration_length in D. simpl in A. lia.
Qed.

Lemma search_bounds (s : string) : forall index b i lastIndex',
  search s index b = Some (i, lastIndex') ->
  index <= i /\ i < lastIndex' /\ lastIndex' <= index + String.length s.
Proof.
  induction s as [|c s IH]; intros index b i li H; [discriminate|].
  cbn [search] in H.
  destruct (if b then match_here (String c s) else None) as [len|] eqn:E.
  - injection H as <- <-.
    destruct b; [|discriminate].
    apply match_here_length in E. lia.
  - apply IH in H. simpl. lia.
Qed.

Lemma drop_length (n : nat) : forall s,
  String.length (drop n s) = String.length s - n.
Proof.
  induction n as [|n IH]; intros s; simpl; [lia|].
  destruct s as [|c s]; simpl; [reflexivity | apply IH].
Qed.

(** A match lies behind the old [lastIndex], is not empty, and ends
    inside the text. *)
Lemma exec_bounds (text : string) (lastIndex i lastIndex' : nat) :
  exec text lastIndex = Some (i, lastIndex') ->
  lastIndex <= i /\ i < lastIndex' /\ lastIndex' <= String.length text.
Proof.
  unfold exec.
  destruct (Nat.ltb (String.length text) lastIndex) eqn:L; [discriminate|].
  apply Nat.ltb_ge in L.
  intros H. apply search_bounds in H. rewrite drop_length in H. lia.
Qed.

(** The loop over [exec] ends within [S fuel] calls as soon as [fuel]
    covers the characters behind [lastIndex]. *)
Lemma exec_all_S (text : string) (fuel lastIndex : nat) :
  exec_all (S fuel) text lastIndex =
  match exec text lastIndex with
  | None => Some []
  | Some (index, lastIndex') =>
      option_map (cons index) (exec_all fuel text lastIndex')
  end.
Proof. reflexivity. Qed.

Lemma exec_all_total (text : string) (fuel : nat) : forall lastIndex,
  String.length text <= fuel + lastIndex ->
  exists ms, exec_all (S fuel) text lastIndex = Some ms.
Proof.
  induction fuel as [|fuel IH]; intros lastIndex Hlen;
    rewrite exec_all_S;
    destruct (exec text lastIndex) as [[i lastIndex']|] eqn:E;
    try (exists []; reflexivity);
    apply exec_bounds in E.
  - lia.
  - destruct (IH lastIndex') as [ms Hms]; [lia|].
    exists (i :: ms). now rewrite Hms.
Qed.

Lemma matches_exec_all (text : string) :
  exec_all (enough text) text 0 = Some (matches text).
Proof.
  unfold matches, enough.
  destruct (exec_all_total text (String.length text) 0) as [ms Hms]; [lia|].
  now rewrite Hms.
Qed.

Lemma drop_step (n : nat) : forall text c rest,
  drop n text = String c rest ->
  drop (S n) text = rest /\ String.get n text = Some c.
Proof.
  induction n as [|n IH]; intros text c rest H.
  - simpl in H. subst text. split; reflexivity.
  - destruct text as [|d text]; [discriminate|].
    simpl in H. apply IH in H. exact H.
Qed.

(** What [search] finds is a place where the line starts and the pattern
    matches. *)
Lemma search_sound (text : string) (s : string) : forall index i lastIndex',
  s = drop index text ->
  search s index (line_start text index) = Some (i, lastIndex') ->
  line_start text i = true
  /\ match_here (drop i text) = Some (lastIndex' - i).
Proof.
  induction s as [|c s IH]; intros index i li Hs H; [discriminate|].
  cbn [search] in H.
  destruct (if line_start text index then match_here (String c s) else None)
    as [len|] eqn:E.
  - injection H as <- <-.
    destruct (line_start text index) eqn:B; [|discriminate].
    split; [reflexivity|]. rewrite <- Hs, E. f_equal. lia.
  - symmetry in Hs. destruct (drop_step _ _ _ _ Hs) as [Hrest Hget].
    apply (IH (S index)); [now symmetry|].
    replace (line_start text (S index)) with (is_line_terminator c);
      [exact H|].
    simpl. now rewrite Hget.
Qed.

Lemma exec_sound (text : string) (lastIndex i lastIndex' : nat) :
  exec text lastIndex = Some (i, lastIndex') ->
  line_start text i = true
  /\ match_here (drop i text) = Some (lastIndex' - i).
Proof.
  unfold exec.
  destruct (Nat.ltb (String.length text) lastIndex); [discriminate|].
  apply search_sound. reflexivity.
Qed.

Lemma exec_all_sound (text : string) (fuel : nat) : forall lastIndex ms,
  exec_all fuel text lastIndex = Some ms ->
  Forall (fun i => line_start text i = true
                   /\ exists len, match_here (drop i text) = Some len) ms.
Proof.
  induction fuel as [|fuel IH]; intros lastIndex ms H; [discriminate|].
  rewrite exec_all_S in H.
  destruct (exec text lastIndex) as [[i lastIndex']|] eqn:E.
  - destruct (exec_all fuel text lastIndex') as [ms'|] eqn:R; [|discriminate].
    injection H as <-. constructor; [|eapply IH; eassumption].
    apply exec_sound in E as [Hl Hm]. split; [exact Hl | eauto].
  - injection H as <-. constructor.
Qed.

End PatternFacts.

(* ===================================================================== *)
(** ** The providers *)
(* ===================================================================== *)

Section ProviderFacts.

Import Assistant Providers FunctionPattern.

Lemma substring0_prefix (n : nat) : forall s,
  String.prefix (substring0 n s) s = true.
Proof.
  unfold substring0.
  induction n as [|n IH]; intros [|c s]; simpl; try reflexivity.
  destruct (ascii_dec c c); [apply IH | congruence].
Qed.

Lemma substring0_length (n : nat) : forall s,
  String.length (substring0 n s) = Nat.min n (String.length s).
Proof.
  unfold substring0.
  induction n as [|n IH]; intros [|c s]; simpl; try reflexivity.
  now rewrite IH.
Qed.

(** The scanning loop, given the matches: [null] when one of the token
    reads [reads], [reads + 1], ... (one per match) sees a cancellation,
    else the lenses so far and one optimize lens per match. *)
Lemma scan_matches (document : TextDocument) (token : CancellationToken)
      (fuel : nat) : forall lastIndex reads lenses ms,
  exec_all fuel (getText document) lastIndex = Some ms ->
  scan fuel document token lastIndex reads lenses =
  if existsb token (seq reads (List.length ms)) then Returned None
  else Returned (Some (lenses ++ map (optimize_lens document) ms)%list).
Proof.
  induction fuel as [|fuel IH]; intros lastIndex reads lenses ms H;
    [discriminate|].
  rewrite exec_all_S in H. cbn [scan].
  destruct (exec (getText document) lastIndex) as [[i lastIndex']|] eqn:E.
  - destruct (exec_all fuel (getText document) lastIndex') as [ms'|] eqn:R;
      [|discriminate].
    injection H as <-. cbn [List.length seq existsb map].
    destruct (token reads); [reflexivity|].
    rewrite (IH _ _ _ _ R), <- app_assoc. reflexivity.
  - injection H as <-. simpl. now rewrite app_nil_r.
Qed.

Lemma provideCodeLenses_matches (document : TextDocument) (token : CancellationToken) :
  provideCodeLenses document token =
  if existsb token (seq 0 (S (List.length (matches (getText document)))))
  then Returned None
  else Returned (Some (analyze_lens
                       :: map (optimize_lens document) (matches (getText document)))).
Proof.
  unfold provideCodeLenses. cbn [seq existsb].
  destruct (token 0); [reflexivity|].
  now rewrite (scan_matches document token _ _ _ _ _ (matches_exec_all _)).
Qed.

Lemma existsb_seq_false (token : CancellationToken) (n : nat) :
  (forall k, k < n -> token k = false) -> existsb token (seq 0 n) = false.
Proof.
  intros H. destruct (existsb token (seq 0 n)) eqn:E; [|reflexivity].
  apply existsb_exists in E as (k & Hk & Ht).
  apply in_seq in Hk. rewrite H in Ht by lia. discriminate.
Qed.

Lemma existsb_seq_true (token : CancellationToken) (n k : nat) :
  k < n -> token k = true -> existsb token (seq 0 n) = true.
Proof.
  intros Hk Ht. apply existsb_exists. exists k. split; [|exact Ht].
  apply in_seq. lia.
Qed.

(** C5 (as amended): with no cancellation seen, the code-lens provider
    returns the analyze lens at the start of the document and then one
    optimize lens per successive match of
    [/^(async\s+)?(function|class)\s+(\w+)/gm] in the text, 1 + N lenses
    for N matches; every match begins where a line begins; a text without a
    match gets the analyze lens alone. *)
Theorem code_lenses_per_match (document : TextDocument) (token : CancellationToken) :
  (forall k, k <= List.length (matches (getText document)) -> token k = false) ->
  exists lenses,
    provideCodeLenses document token = Returned (Some lenses)
    /\ lenses = analyze_lens
                :: map (optimize_lens document) (matches (getText document))
    /\ List.length lenses = 1 + List.length (matches (getText document))
    /\ Forall (fun i => line_start (getText document) i = true
                        /\ exists len,
                             match_here (drop i (getText document)) = Some len)
              (matches (getText document))
    /\ (List.length (matches (getText document)) = 0 -> lenses = [analyze_lens]).
Proof.
  intros Htoken. eexists. split; [|split; [reflexivity|split; [|split]]].
  - rewrite provideCodeLenses_matches, existsb_seq_false; [reflexivity|].
    intros k Hk. apply Htoken. lia.
  - simpl. now rewrite length_map.
  - eapply exec_all_sound. apply matches_exec_all.
  - intros H0. destruct (matches (getText document)); [reflexivity|discriminate].
Qed.

Lemma code_lenses_per_match_witness :
  exists lenses,
    provideCodeLenses
      (Samples.document_with "async function load() {}
class Cache {}" "load") Samples.never_cancelled
    = Returned (Some lenses)
    /\ List.length lenses = 3.
Proof.
  destruct (code_lenses_per_match
              (Samples.document_with "async function load() {}
class Cache {}" "load") Samples.never_cancelled) as (lenses & H & _ & Hlen & _).
  - intros k _. reflexivity.
  - exists lenses. split; [exact H | exact Hlen].
Defined.

(** C5 (as stated) fails: in "export function foo() {}" the words
    "function foo" occur once, so the count by occurrences of
    [(async )?(function|class) name] promises two lenses; the provider's
    pattern is tied to the start of a line, finds no match, and the
    provider returns the analyze lens alone. *)
Lemma exported_function_gets_no_lens :
  ProsePattern.occurrences Samples.exported = 1
  /\ provideCodeLenses (Samples.document_with Samples.exported "export")
                       Samples.never_cancelled
     = Returned (Some [analyze_lens])
  /\ List.length [analyze_lens] <> 1 + ProsePattern.occurrences Samples.exported.
Proof.
  split; [reflexivity|]. split; [reflexivity|]. discriminate.
Qed.

Lemma completion_suppressed a transport document position token context :
  token 0 = true \/ token 1 = true \/ token 2 = true
  \/ String.length (word_at document position) < 3 ->
  outcome (provideCompletionItems a transport document position token context)
  = Returns None.
Proof.
  intros H. unfold provideCompletionItems.
  destruct (token 0) eqn:T0; [reflexivity|].
  destruct (Nat.ltb (String.length (word_at document position)) 3) eqn:W;
    [reflexivity|].
  destruct (is_TriggerCharacter (triggerKind context)
            && no_character (triggerCharacter context)); [reflexivity|].
  destruct (token 1) eqn:T1; [reflexivity|].
  match goal with
  | |- context [generateCompletion ?x ?t ?c ?p] =>
      destruct (generateCompletion x t c p) as [evs [v|e]]
  end; [|reflexivity].
  destruct (token 2) eqn:T2; [reflexivity|].
  apply Nat.ltb_ge in W.
  destruct H as [H|[H|[H|H]]]; try discriminate. lia.
Qed.

(** C4 (as amended): the completion provider returns no candidate when
    the word under the cursor is shorter than three characters; when the
    word has three characters or more, no token read sees a cancellation,
    the trigger is not a bare trigger-character event and the completion
    call returns a string [text], it returns one candidate, labelled
    "Weave: ", the first 50 characters of [text] (all of it when shorter)
    and "...". *)
Theorem completion_candidates
        (a : WeaveAssistant) (transport : Transport) (document : TextDocument)
        (position : Position) (token : CancellationToken)
        (context : CompletionContext) :
  (String.length (word_at document position) < 3 ->
   outcome (provideCompletionItems a transport document position token context)
   = Returns None)
  /\ (forall text,
        3 <= String.length (word_at document position) ->
        token 0 = false -> token 1 = false -> token 2 = false ->
        is_TriggerCharacter (triggerKind context)
        && no_character (triggerCharacter context) = false ->
        outcome (generateCompletion a transport
                   {| code := getText document;
                      language := languageId document;
                      fileName := document_fileName document;
                      ctx_line := line position;
                      ctx_column := character position |} position)
        = Returns (Str text) ->
        exists item,
          outcome (provideCompletionItems a transport document position
                                          token context)
          = Returns (Some [item])
          /\ label item = "Weave: " ++ substring0 50 text ++ "..."
          /\ String.prefix (substring0 50 text) text = true
          /\ String.length (substring0 50 text)
             = Nat.min 50 (String.length text)).
Proof.
  split.
  - intros H. apply completion_suppressed. tauto.
  - intros text Hword T0 T1 T2 Htrigger Hcall.
    unfold provideCompletionItems.
    apply Nat.ltb_ge in Hword. rewrite T0, Hword, Htrigger, T1.
    match goal with
    | |- context [generateCompletion ?x ?t ?c ?p] =>
        destruct (generateCompletion x t c p) as [evs o]
    end.
    unfold outcome in Hcall. simpl in Hcall. subst o.
    eexists. simpl. rewrite T2. simpl.
    split; [reflexivity|]. split; [reflexivity|].
    split; [apply substring0_prefix | apply substring0_length].
Qed.

Lemma completion_candidates_witness :
  outcome (provideCompletionItems Samples.ready MockTransport
             (Samples.document_with Samples.two_lines "co")
             Samples.cursor_line_1 Samples.never_cancelled
             {| triggerKind := Invoke; triggerCharacter := None |})
  = Returns None
  /\ exists item,
       outcome (provideCompletionItems Samples.ready MockTransport
                  (Samples.document_with Samples.two_lines "const")
                  Samples.cursor_line_1 Samples.never_cancelled
                  {| triggerKind := Invoke; triggerCharacter := None |})
       = Returns (Some [item])
       /\ label item
          = "Weave: [Mock completion] This is a placeholder response. ...".
Proof.
  split.
  - apply (proj1 (completion_candidates Samples.ready MockTransport
                    (Samples.document_with Samples.two_lines "co")
                    Samples.cursor_line_1 Samples.never_cancelled
                    {| triggerKind := Invoke; triggerCharacter := None |})).
    simpl. lia.
  - destruct (proj2 (completion_candidates Samples.ready MockTransport
                       (Samples.document_with Samples.two_lines "const")
                       Samples.cursor_line_1 Samples.never_cancelled
                       {| triggerKind := Invoke; triggerCharacter := None |})
                    "[Mock completion] This is a placeholder response. In production, this would be generated by the Weave framework.")
      as (item & Hitem & Hlabel & _); try reflexivity.
    + simpl. lia.
    + exists item. split; [exact Hitem | exact Hlabel].
Defined.

(** C4 (as stated) fails: the completion call can succeed with a content
    that is no string.  For the response body [{content: 42}] the call
    returns the number 42; the word under the cursor has five characters,
    nothing is cancelled, the trigger is an invocation, and the provider
    returns [null], not a candidate: [substring] is not a function of a
    number, and the provider's [catch] turns the error into [null]. *)
Lemma completion_of_number_content_is_null :
  outcome (generateCompletion Samples.ready
             (HttpTransport
                (PostResolves (Object [("content", Number (42 # 1)%Q)])))
             {| code := getText (Samples.document_with Samples.two_lines "const");
                language := "typescript"; fileName := "sample.ts";
                ctx_line := 1; ctx_column := 11 |}
             Samples.cursor_line_1)
  = Returns (Number (42 # 1)%Q)
  /\ String.length
       (word_at (Samples.document_with Samples.two_lines "const")
                Samples.cursor_line_1) = 5
  /\ outcome (provideCompletionItems Samples.ready
                (HttpTransport
                   (PostResolves (Object [("content", Number (42 # 1)%Q)])))
                (Samples.document_with Samples.two_lines "const")
                Samples.cursor_line_1 Samples.never_cancelled
                {| triggerKind := Invoke; triggerCharacter := None |})
     = Returns None.
Proof.
  split; [reflexivity | split; reflexivity].
Qed.

(** C8: the completion provider returns [null] as soon as one of its three
    reads of the token (on entry, before the completion call, after it) sees
    a cancellation, and when the first or the second read sees it nothing
    has been done, no call made; the code-lens provider returns [null] when
    its read on entry or its read at one of the matches sees a
    cancellation. *)
Theorem cancellation_returns_empty
        (a : WeaveAssistant) (transport : Transport) (document : TextDocument)
        (position : Position) (token : CancellationToken)
        (context : CompletionContext) :
  (token 0 = true \/ token 1 = true \/ token 2 = true ->
   outcome (provideCompletionItems a transport document position token context)
   = Returns None)
  /\ (token 0 = true \/ token 1 = true ->
      events (provideCompletionItems a transport document position token context)
      = [])
  /\ (forall k,
        k <= List.length (matches (getText document)) ->
        token k = true ->
        provideCodeLenses document token = Returned None).
Proof.
  split; [|split].
  - intros H. apply completion_suppressed. tauto.
  - intros H. unfold provideCompletionItems.
    destruct (token 0) eqn:T0; [reflexivity|].
    destruct (Nat.ltb (String.length (word_at document position)) 3);
      [reflexivity|].
    destruct (is_TriggerCharacter (triggerKind context)
              && no_character (triggerCharacter context)); [reflexivity|].
    destruct H as [H|H]; [discriminate|]. rewrite H. reflexivity.
  - intros k Hk Ht.
    rewrite provideCodeLenses_matches.
    rewrite (existsb_seq_true token _ k); [reflexivity | lia | exact Ht].
Qed.

Lemma cancellation_returns_empty_witness :
  outcome (provideCompletionItems Samples.ready MockTransport
             (Samples.document_with Samples.two_lines "const")
             Samples.cursor_line_1 (Samples.cancelled_from 2)
             {| triggerKind := Invoke; triggerCharacter := None |})
  = Returns None
  /\ events (provideCompletionItems Samples.ready MockTransport
               (Samples.document_with Samples.two_lines "const")
               Samples.cursor_line_1 (Samples.cancelled_from 1)
               {| triggerKind := Invoke; triggerCharacter := None |})
     = []
  /\ provideCodeLenses
       (Samples.document_with "function f() {}
function g() {}" "function") (Samples.cancelled_from 2)
     = Returned None.
Proof.
  split; [|split].
  - apply (proj1 (cancellation_returns_empty Samples.ready MockTransport
                    (Samples.document_with Samples.two_lines "const")
                    Samples.cursor_line_1 (Samples.cancelled_from 2)
                    {| triggerKind := Invoke; triggerCharacter := None |})).
    right. right. reflexivity.
  - apply (proj1 (proj2 (cancellation_returns_empty Samples.ready MockTransport
                    (Samples.document_with Samples.two_lines "const")
                    Samples.cursor_line_1 (Samples.cancelled_from 1)
                    {| triggerKind := Invoke; triggerCharacter := None |}))).
    right. reflexivity.
  - apply (proj2 (proj2 (cancellation_returns_empty Samples.ready MockTransport
                    (Samples.document_with "function f() {}
function g() {}" "function")
                    Samples.cursor_line_1 (Samples.cancelled_from 2)
                    {| triggerKind := Invoke; triggerCharacter := None |})) 2).
    + vm_compute. lia.
    + reflexivity.
Defined.

End ProviderFacts.

(* ===================================================================== *)
(** ** Further facts: the assistant *)
(* ===================================================================== *)

Section AssistantExtras.

Import Assistant Composer Lifecycle.

(** X1: [initialize] throws "API key not configured for <provider>", logs
    the failure and leaves the object as it was, when the API key is empty
    and the provider is not [local]; in every other case (a key, or the
    local provider without one) it sets the flag and logs success. *)
Theorem initialize_validates_key (a : WeaveAssistant) :
  (getApiKey (config a) = "" -> getProvider (config a) <> local ->
   initialize a
   = (a, ([LogError "Failed to initialize WeaveAssistant:"],
          Throws (ErrorInstance
                    ("API key not configured for "
                     ++ provider_name (getProvider (config a)))))))
  /\ (getApiKey (config a) <> "" \/ getProvider (config a) = local ->
      initialize a
      = ({| config := config a; isInitialized := true |},
         ([LogInfo "WeaveAssistant initialized successfully"], Returns tt))).
Proof.
  unfold initialize. split.
  - intros Hkey Hprov. rewrite Hkey.
    destruct (getProvider (config a)); try reflexivity. congruence.
  - intros [Hkey | Hprov].
    + destruct (getApiKey (config a)) as [|c k]; [congruence | reflexivity].
    + rewrite Hprov. simpl. now rewrite andb_false_r.
Qed.

Lemma initialize_validates_key_witness :
  initialize (new (mkConfig "" anthropic "claude" (7 # 10)%Q 1000%Z))
  = (new (mkConfig "" anthropic "claude" (7 # 10)%Q 1000%Z),
     ([LogError "Failed to initialize WeaveAssistant:"],
      Throws (ErrorInstance "API key not configured for anthropic")))
  /\ isInitialized
       (fst (initialize (new (mkConfig "" local "llama" (7 # 10)%Q 1000%Z))))
     = true.
Proof.
  split.
  - apply (proj1 (initialize_validates_key
                    (new (mkConfig "" anthropic "claude" (7 # 10)%Q 1000%Z)))).
    + reflexivity.
    + discriminate.
  - rewrite (proj2 (initialize_validates_key
                      (new (mkConfig "" local "llama" (7 # 10)%Q 1000%Z)))).
    + reflexivity.
    + right. reflexivity.
Defined.

(** X2: the documentation prompt contains the context's code verbatim,
    between a fence line made of three backquotes and the language tag and
    a closing fence, and this prompt is what an initialized assistant sends
    as [prompt] of its request. *)
Theorem documentation_prompt_fences_code
        (a : WeaveAssistant) (reply : HttpReply) (context : WeaveCodeContext) :
  Includes (fenced (language context) (code context))
           (generateDocumentation_userPrompt context)
  /\ (isInitialized a = true ->
      exists body rest,
        events (generateDocumentation a (HttpTransport reply) context)
        = WithProgress "Weave AI Assistant" "Analyzing with Weave AI..."
          :: HttpPost endpoint body :: rest
        /\ prompt body = generateDocumentation_userPrompt context
        /\ body_systemPrompt body = generateDocumentation_systemPrompt).
Proof.
  split.
  - exists ("Generate JSDoc/documentation for this " ++ language context
            ++ " code:

"), ("

Include description, parameters, return type, and examples where relevant.").
    unfold generateDocumentation_userPrompt, fenced, fence_open, fence_close.
    rewrite !append_assoc. reflexivity.
  - intros Hinit. unfold generateDocumentation.
    rewrite (guarded_call a _ Hinit).
    destruct reply as [error | data]; [|destruct data];
      eexists; eexists; (split; [reflexivity | split; reflexivity]).
Qed.

Lemma documentation_prompt_fences_code_witness :
  exists body rest,
    events (generateDocumentation Samples.ready
              (HttpTransport (PostRejects Samples.status_500))
              Samples.context_two_lines)
    = WithProgress "Weave AI Assistant" "Analyzing with Weave AI..."
      :: HttpPost endpoint body :: rest
    /\ prompt body = generateDocumentation_userPrompt Samples.context_two_lines
    /\ body_systemPrompt body = generateDocumentation_systemPrompt.
Proof.
  apply (proj2 (documentation_prompt_fences_code Samples.ready
                  (PostRejects Samples.status_500) Samples.context_two_lines)).
  reflexivity.
Defined.

(** X3: whenever a transport call returns, by either variant, the result
    carries the requested kind and the context's language, and its content
    is truthy or the empty string: never [undefined], [null], [false] or
    [0]. *)
Theorem callWeaveAPI_result_invariant
        (a : WeaveAssistant) (transport : Transport)
        (systemPrompt userPrompt : string) (ty : ResultType)
        (context : WeaveCodeContext) (result : WeaveAnalysisResult) :
  outcome (callWeaveAPI a transport systemPrompt userPrompt ty context)
  = Returns result ->
  type result = ty
  /\ result_language result = language context
  /\ (truthy (content result) = true \/ content result = Str "").
Proof.
  intros H.
  destruct transport as [|[error | data]].
  - injection H as <-. repeat split. left. reflexivity.
  - discriminate.
  - destruct data; try discriminate; injection H as <-;
      (split; [reflexivity | split; [reflexivity|]]);
      try (right; reflexivity).
    simpl. unfold or_else.
    destruct (truthy (assoc "content" fields)) eqn:T; [left; exact T | now right].
Qed.

Lemma callWeaveAPI_result_invariant_witness :
  exists result,
    outcome (callWeaveAPI Samples.ready
               (HttpTransport (PostResolves Samples.usage_only))
               suggestOptimization_systemPrompt
               (suggestOptimization_userPrompt Samples.context_two_lines)
               suggestion Samples.context_two_lines)
    = Returns result
    /\ type result = suggestion
    /\ result_language result = "typescript"
    /\ (truthy (content result) = true \/ content result = Str "").
Proof.
  eexists. split; [reflexivity|].
  apply (callWeaveAPI_result_invariant Samples.ready
           (HttpTransport (PostResolves Samples.usage_only))
           suggestOptimization_systemPrompt
           (suggestOptimization_userPrompt Samples.context_two_lines)
           suggestion Samples.context_two_lines).
  reflexivity.
Defined.

(** X4: with the mock variant an initialized assistant never fails and
    makes its one simulated call; what an operation hands back depends on
    the context's language only, not on its code, file or position. *)
Theorem mock_ignores_code
        (a : WeaveAssistant) (op : Op) (context context' : WeaveCodeContext) :
  (isInitialized a = true ->
   returns (run_op a MockTransport op context) = true
   /\ events (run_op a MockTransport op context)
      = [WithProgress "Weave AI Assistant" "Analyzing with Weave AI...";
         SetTimeout 1000])
  /\ (language context = language context' ->
      run_op a MockTransport op context = run_op a MockTransport op context').
Proof.
  split.
  - intros Hinit. rewrite (run_op_initialized a _ op _ Hinit).
    destruct op; split; reflexivity.
  - intros Hlang.
    destruct (isInitialized a) eqn:Hinit.
    + rewrite !(run_op_initialized a _ op _ Hinit).
      destruct op; unfold perform, callWeaveAPI, callWeaveAPI_mock;
        rewrite Hlang; reflexivity.
    + now rewrite !(run_op_uninitialized a _ op _ Hinit).
Qed.

Lemma mock_ignores_code_witness :
  run_op Samples.ready MockTransport op_analyzeCode Samples.context_two_lines
  = run_op Samples.ready MockTransport op_analyzeCode
           {| code := "print(1)"; language := "typescript";
              fileName := "other.ts"; ctx_line := 7; ctx_column := 0 |}.
Proof.
  apply (proj2 (mock_ignores_code Samples.ready op_analyzeCode
                  Samples.context_two_lines
                  {| code := "print(1)"; language := "typescript";
                     fileName := "other.ts"; ctx_line := 7; ctx_column := 0 |})).
  reflexivity.
Defined.

End AssistantExtras.

(* ===================================================================== *)
(** ** Further facts: the commands *)
(* ===================================================================== *)

Section CommandExtras.

Import Assistant Commands Trace.

Lemma bind_returns {A B} (m : M A) (f : A -> M B) (x : A) :
  outcome m = Returns x ->
  bind m f = ((events m ++ events (f x))%list, outcome (f x)).
Proof.
  destruct m as [t [y|e]]; simpl; intros H; [|discriminate].
  injection H as ->. now destruct (f x).
Qed.

Lemma showResult_string (title text : string) :
  showResult title (Str text)
  = ([CreateWebviewPanel "weaveResult" title;
      SetWebviewHtml (webview_html title text)], Returns tt).
Proof. reflexivity. Qed.

(** A truthy content that is no string: the panel is created, then the
    call of [replace] on it throws. *)
Lemma showResult_not_string (title : string) (v : Value) :
  truthy v = true -> (forall s, v <> Str s) ->
  showResult title v
  = ([CreateWebviewPanel "weaveResult" title],
     Throws (ErrorInstance "content.replace is not a function")).
Proof.
  intros Ht Hs. destruct v; try discriminate; try reflexivity.
  exfalso. now apply (Hs s).
Qed.

Lemma replace_nl_br_app (s t : string) :
  replace_nl_br (s ++ t) = replace_nl_br s ++ replace_nl_br t.
Proof.
  induction s as [|c s IH]; simpl; [reflexivity|].
  destruct (is_nl c); now rewrite IH.
Qed.

Lemma no_nl_app (s t : string) :
  no_nl (s ++ t) = no_nl s && no_nl t.
Proof.
  induction s as [|c s IH]; simpl; [reflexivity|].
  now rewrite IH, andb_assoc.
Qed.

Lemma replace_nl_br_id (s : string) :
  no_nl s = true -> replace_nl_br s = s.
Proof.
  induction s as [|c s IH]; simpl; [reflexivity|].
  intros H. apply andb_true_iff in H as [Hc Hs].
  apply negb_true_iff in Hc. now rewrite Hc, (IH Hs).
Qed.

(** X5: [content.replace(/\n/g, '<br>')] leaves no line feed in the text,
    changes nothing in a text that has none, works piece by piece, and
    turns the lines of a text into the same lines joined by "<br>". *)
Theorem replace_nl_br_removes_line_feeds (s t : string) :
  no_nl (replace_nl_br s) = true
  /\ (no_nl s = true -> replace_nl_br s = s)
  /\ replace_nl_br (s ++ nl ++ t) = replace_nl_br s ++ "<br>" ++ replace_nl_br t
  /\ String.length (replace_nl_br s)
     = String.length s + 3 * (List.length (split_nl s) - 1).
Proof.
  split; [|split; [|split]].
  - induction s as [|c s IH]; simpl; [reflexivity|].
    destruct (is_nl c) eqn:E; simpl; [exact IH | now rewrite E, IH].
  - apply replace_nl_br_id.
  - rewrite !replace_nl_br_app. reflexivity.
  - induction s as [|c s IH]; simpl; [reflexivity|].
    pose proof (split_nl_nonempty s) as Hne.
    destruct (is_nl c); simpl.
    + rewrite IH. destruct (split_nl s); [congruence | simpl; lia].
    + rewrite IH. destruct (split_nl s); [congruence | simpl; lia].
Qed.

Lemma replace_nl_br_removes_line_feeds_witness :
  replace_nl_br "looks fine" = "looks fine".
Proof.
  apply (proj1 (proj2 (replace_nl_br_removes_line_feeds "looks fine" ""))).
  reflexivity.
Defined.

(** X6: without an active editor each of generate-prompt, analyze,
    suggest-optimization and insert-template shows "No active editor" and
    does nothing else: the assistant is not reached, nothing is asked of
    the user, the objects of the extension stay as they were. *)
Theorem no_active_editor_aborts
        (st : Extension) (env : Environment)
        (active : Position) (selected action : option string) :
  activeTextEditor env = None ->
  invoke st weave_generatePrompt env
  = (st, ([ShowErrorMessage "No active editor"], Returns tt))
  /\ invoke st weave_analyzeCode env
     = (st, ([ShowErrorMessage "No active editor"], Returns tt))
  /\ invoke st weave_suggestOptimization env
     = (st, ([ShowErrorMessage "No active editor"], Returns tt))
  /\ Templates.insertTemplate (activeTextEditor env) active selected action
     = [inl (ShowErrorMessage "No active editor")].
Proof.
  intros H. unfold invoke, generatePrompt, analyzeCode, suggestOptimization.
  rewrite H. repeat split.
Qed.

Lemma no_active_editor_aborts_witness :
  invoke Samples.extension weave_generatePrompt
         {| activeTextEditor := None; transport := MockTransport;
            pickedAction := Some "Copy to Clipboard" |}
  = (Samples.extension, ([ShowErrorMessage "No active editor"], Returns tt)).
Proof.
  apply (no_active_editor_aborts Samples.extension
           {| activeTextEditor := None; transport := MockTransport;
              pickedAction := Some "Copy to Clipboard" |}
           {| line := 0; character := 0 |} None None).
  reflexivity.
Defined.

(** X7: when the transport call of analyze or suggest-optimization
    returns a string, the command shows, behind the effects of the call,
    one new panel titled after the command whose document is the page built
    from the title and that string; no message is shown. *)
Theorem result_rendered_in_panel
        (a : WeaveAssistant) (transport : Transport) (editor : TextEditor) :
  isEmpty (selection editor) = false ->
  (forall r text,
     outcome (Assistant.analyzeCode a transport (context_of editor)) = Returns r ->
     content r = Str text ->
     analyzeCode a transport (Some editor)
     = ((events (Assistant.analyzeCode a transport (context_of editor))
         ++ [CreateWebviewPanel "weaveResult" "Weave: Code Analysis";
             SetWebviewHtml (webview_html "Weave: Code Analysis" text)])%list,
        Returns tt))
  /\ (forall r text,
        outcome (Assistant.suggestOptimization a transport (context_of editor))
        = Returns r ->
        content r = Str text ->
        suggestOptimization a transport (Some editor)
        = ((events (Assistant.suggestOptimization a transport (context_of editor))
            ++ [CreateWebviewPanel "weaveResult" "Weave: Optimization Suggestions";
                SetWebviewHtml
                  (webview_html "Weave: Optimization Suggestions" text)])%list,
           Returns tt)).
Proof.
  intros Hsel.
  unfold analyzeCode, suggestOptimization. rewrite Hsel.
  split; intros r text Hr Hc;
    rewrite (bind_returns _ _ r Hr), Hc, showResult_string; reflexivity.
Qed.

Lemma result_rendered_in_panel_witness :
  analyzeCode Samples.ready
    (HttpTransport (PostResolves (Object [("content", Str "looks fine")])))
    (Some Samples.editor_with_selection)
  = ((events (Assistant.analyzeCode Samples.ready
                (HttpTransport (PostResolves (Object [("content", Str "looks fine")])))
                (context_of Samples.editor_with_selection))
      ++ [CreateWebviewPanel "weaveResult" "Weave: Code Analysis";
          SetWebviewHtml (webview_html "Weave: Code Analysis" "looks fine")])%list,
     Returns tt).
Proof.
  eapply (proj1 (result_rendered_in_panel Samples.ready
                   (HttpTransport (PostResolves (Object [("content", Str "looks fine")])))
                   Samples.editor_with_selection eq_refl)
                _ "looks fine" eq_refl eq_refl).
Defined.

(** X8: when the transport call of generate-prompt returns a string, the
    command shows the panel and then the message "Prompt generated
    successfully" with its two buttons; the text goes to the clipboard, and
    a second message confirms it, exactly when the user picks "Copy to
    Clipboard"; with "Open in Panel" or no pick nothing more happens. *)
Theorem generated_prompt_offered
        (a : WeaveAssistant) (transport : Transport) (editor : TextEditor)
        (action : option string) (r : WeaveAnalysisResult) (text : string) :
  isEmpty (selection editor) = false ->
  outcome (Assistant.generatePrompt a transport (context_of editor)) = Returns r ->
  content r = Str text ->
  generatePrompt a transport (Some editor) action
  = ((events (Assistant.generatePrompt a transport (context_of editor))
      ++ [CreateWebviewPanel "weaveResult" "Weave: Generated Prompt";
          SetWebviewHtml (webview_html "Weave: Generated Prompt" text);
          ShowInformationMessage "Prompt generated successfully"
                                 ["Copy to Clipboard"; "Open in Panel"]]
      ++ (if is_copy action
          then [ClipboardWriteText (Str text);
                ShowInformationMessage "Prompt copied to clipboard" []]
          else []))%list,
     Returns tt)
  /\ (is_copy action = true <-> action = Some "Copy to Clipboard").
Proof.
  intros Hsel Hr Hc. split.
  - unfold generatePrompt. rewrite Hsel.
    rewrite (bind_returns _ _ r Hr), Hc, showResult_string.
    destruct (is_copy action); reflexivity.
  - unfold is_copy. destruct action as [x|]; [|split; discriminate].
    rewrite String.eqb_eq. split; congruence.
Qed.

Lemma generated_prompt_offered_witness :
  generatePrompt Samples.ready MockTransport
                 (Some Samples.editor_with_selection) (Some "Open in Panel")
  = ((events (Assistant.generatePrompt Samples.ready MockTransport
                (context_of Samples.editor_with_selection))
      ++ [CreateWebviewPanel "weaveResult" "Weave: Generated Prompt";
          SetWebviewHtml
            (webview_html "Weave: Generated Prompt"
               "[Mock analysis] This is a placeholder response. In production, this would be generated by the Weave framework.");
          ShowInformationMessage "Prompt generated successfully"
                                 ["Copy to Clipboard"; "Open in Panel"]]
      ++ [])%list,
     Returns tt).
Proof.
  eapply (proj1 (generated_prompt_offered Samples.ready MockTransport
                   Samples.editor_with_selection (Some "Open in Panel") _ _
                   eq_refl eq_refl eq_refl)).
Defined.

(** X9: when the response's [content] field is truthy and not a string (a
    number, [true], an object), each of the three commands has already
    created its panel when the page cannot be built: the panel gets no
    document and one error message ends with "content.replace is not a
    function". *)
Theorem content_not_a_string
        (a : WeaveAssistant) (fields : list (string * Value))
        (editor : TextEditor) (action : option string) :
  isInitialized a = true ->
  isEmpty (selection editor) = false ->
  truthy (assoc "content" fields) = true ->
  (forall s, assoc "content" fields <> Str s) ->
  let transport := HttpTransport (PostResolves (Object fields)) in
  generatePrompt a transport (Some editor) action
  = ((events (Assistant.generatePrompt a transport (context_of editor))
      ++ [CreateWebviewPanel "weaveResult" "Weave: Generated Prompt";
          ShowErrorMessage
            "Failed to generate prompt: content.replace is not a function"])%list,
     Returns tt)
  /\ analyzeCode a transport (Some editor)
     = ((events (Assistant.analyzeCode a transport (context_of editor))
         ++ [CreateWebviewPanel "weaveResult" "Weave: Code Analysis";
             ShowErrorMessage
               "Failed to analyze code: content.replace is not a function"])%list,
        Returns tt)
  /\ suggestOptimization a transport (Some editor)
     = ((events (Assistant.suggestOptimization a transport (context_of editor))
         ++ [CreateWebviewPanel "weaveResult" "Weave: Optimization Suggestions";
             ShowErrorMessage
               "Failed to get suggestions: content.replace is not a function"])%list,
        Returns tt).
Proof.
  intros Hinit Hsel Ht Hs transport. unfold transport.
  unfold generatePrompt, analyzeCode, suggestOptimization. rewrite Hsel.
  unfold Assistant.generatePrompt, Assistant.analyzeCode,
    Assistant.suggestOptimization.
  rewrite !(guarded_call a _ Hinit).
  rewrite !(bind_returns _ _ _ (send_object a _ _ _ (context_of editor) fields)).
  simpl content. unfold or_else. rewrite Ht.
  rewrite !(showResult_not_string _ _ Ht Hs).
  repeat split; unfold try_catch, bind; simpl; rewrite <- !app_assoc; reflexivity.
Qed.

Lemma content_not_a_string_witness :
  analyzeCode Samples.ready
    (HttpTransport (PostResolves (Object [("content", Number (42 # 1)%Q)])))
    (Some Samples.editor_with_selection)
  = ((events (Assistant.analyzeCode Samples.ready
                (HttpTransport
                   (PostResolves (Object [("content", Number (42 # 1)%Q)])))
                (context_of Samples.editor_with_selection))
      ++ [CreateWebviewPanel "weaveResult" "Weave: Code Analysis";
          ShowErrorMessage
            "Failed to analyze code: content.replace is not a function"])%list,
     Returns tt).
Proof.
  apply (proj1 (proj2 (content_not_a_string Samples.ready
                         [("content", Number (42 # 1)%Q)]
                         Samples.editor_with_selection None
                         eq_refl eq_refl eq_refl
                         (fun s H => ltac:(discriminate H))))).
Defined.

Lemma showResult_events (title : string) (v : Value) :
  count is_error_message (events (showResult title v)) = 0
  /\ count is_transport_call (events (showResult title v)) = 0.
Proof. destruct v; split; reflexivity. Qed.

Lemma no_error_messages_count (evs : list Event) :
  error_messages evs = [] -> count is_error_message evs = 0.
Proof.
  induction evs as [|ev evs IH]; [reflexivity|].
  destruct ev; simpl; intros H; try discriminate; now apply IH.
Qed.

(** The guarded transport call of an operation shows no error message and
    makes at most one transport call (none when the guard throws). *)
Lemma guarded_call_quiet (a : WeaveAssistant) (transport : Transport)
      (systemPrompt userPrompt : string) (ty : ResultType)
      (context : WeaveCodeContext) :
  let m := bind (ensureInitialized a)
             (fun _ => callWeaveAPI a transport systemPrompt userPrompt ty context) in
  count is_error_message (events m) = 0
  /\ count is_transport_call (events m) <= 1.
Proof.
  intros m. subst m.
  destruct (callWeaveAPI_events a transport systemPrompt userPrompt ty context)
    as (_ & Hc & He).
  apply no_error_messages_count in He.
  destruct (isInitialized a) eqn:Hinit.
  - rewrite (guarded_call a _ Hinit). lia.
  - unfold ensureInitialized. rewrite Hinit. simpl. split; [reflexivity|].
    unfold count. simpl. lia.
Qed.

(** A command body inside [try { ... } catch]: whatever the awaited call
    and the rendering do, the command returns, with at most one error
    message and the transport calls of the awaited call. *)
Lemma guarded_command {A} (call : M A) (k : A -> M unit) (prefix : string) :
  count is_error_message (events call) = 0 ->
  count is_transport_call (events call) <= 1 ->
  (forall r, count is_error_message (events (k r)) = 0
             /\ count is_transport_call (events (k r)) = 0) ->
  let m := try_catch (bind call k)
             (fun error => emit (ShowErrorMessage (prefix ++ error_text error))) in
  outcome m = Returns tt
  /\ count is_error_message (events m) <= 1
  /\ count is_transport_call (events m) <= 1.
Proof.
  intros He Ht Hk m. subst m.
  destruct call as [t [r|e]]; unfold events, outcome in *; simpl in *.
  - specialize (Hk r). destruct (k r) as [t' [[]|e']]; simpl in *;
      rewrite ?count_app; destruct Hk as [Hk1 Hk2];
      repeat split; try reflexivity; unfold count in *; simpl; lia.
  - rewrite !count_app. repeat split; unfold count in *; simpl; lia.
Qed.

(** X10: no command lets an error out.  Whatever the editor, the selection,
    the state of the assistant, the transport and its reply are, an
    invocation returns, shows at most one error message and makes at most
    one transport call. *)
Theorem commands_never_throw (st : Extension) (cmd : Command) (env : Environment) :
  outcome (snd (invoke st cmd env)) = Returns tt
  /\ count is_error_message (events (snd (invoke st cmd env))) <= 1
  /\ count is_transport_call (events (snd (invoke st cmd env))) <= 1.
Proof.
  destruct cmd; unfold invoke; simpl snd;
    [unfold generatePrompt | unfold analyzeCode | unfold suggestOptimization | ].
  1-3: destruct (activeTextEditor env) as [editor|];
    [|repeat split; unfold count; simpl; lia];
    destruct (isEmpty (selection editor));
    [repeat split; unfold count; simpl; lia|];
    apply guarded_command; try apply guarded_call_quiet.
  - intros r. destruct (content r); destruct (is_copy (pickedAction env));
      split; reflexivity.
  - intros r. apply showResult_events.
  - intros r. apply showResult_events.
  - destruct st as [assistant [b]]. simpl.
    repeat split; unfold count; simpl; lia.
Qed.

Lemma includes_inside (pre s post : string) : Includes s (pre ++ s ++ post).
Proof. exists pre, post. reflexivity. Qed.

(** The page is a fixed frame around the title, put in twice, and the
    text, put in once with its line feeds replaced. *)
Lemma webview_html_frame :
  exists head middle body tail,
    forall title text,
      webview_html title text
      = head ++ ("<title>" ++ title ++ "</title>") ++ middle
        ++ ("<h1>" ++ title ++ "</h1>") ++ body
        ++ ("<div id=" ++ dq ++ "content" ++ dq ++ ">"
            ++ replace_nl_br text ++ "</div>") ++ tail.
Proof.
  pose (blank := webview_html "" "").
  pose (head := String.substring 0 146 blank).
  pose (middle := String.substring 161 1409 blank).
  pose (body := String.substring 1579 5 blank).
  pose (tail := String.substring 1608 379 blank).
  vm_compute in head, middle, body, tail.
  exists head, middle, body, tail. intros title text.
  unfold webview_html, head, middle, body, tail.
  rewrite !append_assoc. reflexivity.
Qed.

(** X11: the page of a result panel holds the title in its [<title>] and
    in its [<h1>] heading, and the result text, its line feeds replaced by
    "<br>", in the [content] block; nothing else of the text is changed, so
    a text without line feeds, markup included, is in the page as it is. *)
Theorem webview_page_embeds_result (title text : string) :
  Includes ("<title>" ++ title ++ "</title>") (webview_html title text)
  /\ Includes ("<h1>" ++ title ++ "</h1>") (webview_html title text)
  /\ Includes ("<div id=" ++ dq ++ "content" ++ dq ++ ">"
               ++ replace_nl_br text ++ "</div>")
              (webview_html title text)
  /\ (no_nl text = true -> Includes text (webview_html title text)).
Proof.
  destruct webview_html_frame as (head & middle & body & tail & H).
  rewrite H. split; [|split; [|split]].
  - apply includes_inside.
  - exists (head ++ ("<title>" ++ title ++ "</title>") ++ middle).
    eexists. rewrite !append_assoc. reflexivity.
  - exists (head ++ ("<title>" ++ title ++ "</title>") ++ middle
            ++ ("<h1>" ++ title ++ "</h1>") ++ body).
    eexists. rewrite !append_assoc. reflexivity.
  - intros Hnl. rewrite (replace_nl_br_id text Hnl).
    exists (head ++ ("<title>" ++ title ++ "</title>") ++ middle
            ++ ("<h1>" ++ title ++ "</h1>") ++ body
            ++ "<div id=" ++ dq ++ "content" ++ dq ++ ">").
    eexists. rewrite !append_assoc. reflexivity.
Qed.

Lemma webview_page_embeds_result_witness :
  Includes "<script>alert(1)</script>"
           (webview_html "Weave: Code Analysis" "<script>alert(1)</script>").
Proof.
  apply (proj2 (proj2 (proj2 (webview_page_embeds_result
                                "Weave: Code Analysis"
                                "<script>alert(1)</script>")))).
  reflexivity.
Defined.

Lemma toggle_times_S (n : nat) (h : CommandHandler) :
  toggle_times (S n) h = fst (toggleInlineHints (toggle_times n h)).
Proof.
  revert h. induction n as [|n IH]; intros h; [reflexivity|].
  change (toggle_times (S (S n)) h)
    with (toggle_times (S n) (fst (toggleInlineHints h))).
  rewrite IH. reflexivity.
Qed.

(** X12: the handler is constructed with inline hints enabled, so after
    [n] invocations of the toggle command the flag is [true] exactly when
    [n] is even; each invocation reports the state it has just set, in an
    information message and in the status bar text. *)
Theorem toggle_parity (n : nat) (h : CommandHandler) :
  inlineHintsEnabled (toggle_times n Activation.new_CommandHandler) = Nat.even n
  /\ events (snd (toggleInlineHints h))
     = (if inlineHintsEnabled (fst (toggleInlineHints h))
        then [ShowInformationMessage "Inline hints enabled" [];
              SetStatusBarText "Weave $(lightbulb) enabled"]
        else [ShowInformationMessage "Inline hints disabled" [];
              SetStatusBarText "Weave $(lightbulb) disabled"]).
Proof.
  split.
  - induction n as [|n IH]; [reflexivity|].
    rewrite toggle_times_S, Nat.even_succ, <- Nat.negb_even, <- IH.
    reflexivity.
  - destruct h as [[|]]; reflexivity.
Qed.

End CommandExtras.

(* ===================================================================== *)
(** ** Further facts: the template command *)
(* ===================================================================== *)

Section TemplateExtras.

Import Templates.

Lemma template_cases (t : Template) :
  In t templates -> t = basic_usage \/ t = classification \/ t = extraction.
Proof.
  intros [H | [H | [H | []]]]; subst; auto.
Qed.

Lemma find_template_label (t : Template) :
  In t templates -> find_template (label t) = Some t.
Proof.
  intros H. apply template_cases in H as [-> | [-> | ->]]; reflexivity.
Qed.

Lemma find_template_known (selected : string) (t : Template) :
  find_template selected = Some t -> In t templates /\ selected = label t.
Proof.
  intros H. unfold find_template in H.
  apply find_some in H as [Hin Heq].
  apply String.eqb_eq in Heq. auto.
Qed.

(** X13: insert-template writes into the editor only when the user picked
    one of the three templates and either the file's language is the
    template's ("typescript") or the warning was answered "Insert anyway":
    then it inserts that template's text once, at the cursor, and reports
    it; a dismissed pick, an unknown label, "Cancel" or a dismissed warning
    insert nothing. *)
Theorem template_inserted_on_consent
        (editor : TextEditor) (active : Position)
        (selected action : option string) :
  (forall position text,
     In (inr (EditInsert position text))
        (insertTemplate (Some editor) active selected action) ->
     position = active
     /\ exists t,
          In t templates /\ selected = Some (label t) /\ text = template t
          /\ (languageId (document editor) = "typescript"
              \/ action = Some "Insert anyway"))
  /\ (forall t,
        In t templates -> selected = Some (label t) ->
        languageId (document editor) = "typescript"
        \/ action = Some "Insert anyway" ->
        exists before,
          insertTemplate (Some editor) active selected action
          = (before ++ [inr (EditInsert active (template t));
                        inl (ShowInformationMessage "Template inserted" [])])%list
          /\ existsb is_insert before = false).
Proof.
  split.
  - intros position text Hin.
    unfold insertTemplate in Hin.
    destruct Hin as [Hin | Hin]; [discriminate|].
    destruct selected as [sel|]; [|contradiction].
    destruct (negb (truthy (Str sel))); [contradiction|].
    destruct (find_template sel) as [t|] eqn:F; [|contradiction].
    apply find_template_known in F as [Ht ->].
    assert (Hlang : template_language t = "typescript").
    { apply template_cases in Ht as [-> | [-> | ->]]; reflexivity. }
    rewrite Hlang in Hin.
    destruct (String.eqb "typescript" (languageId (document editor))) eqn:L;
      simpl in Hin.
    + apply String.eqb_eq in L.
      destruct Hin as [Hin | [Hin | []]]; [|discriminate].
      injection Hin as <- <-. split; [reflexivity|].
      exists t. auto.
    + destruct Hin as [Hin | Hin]; [discriminate|].
      destruct action as [a|]; [|contradiction].
      destruct (String.eqb a "Insert anyway") eqn:A; [|contradiction].
      apply String.eqb_eq in A. subst a.
      destruct Hin as [Hin | [Hin | []]]; [|discriminate].
      injection Hin as <- <-. split; [reflexivity|].
      exists t. auto.
  - intros t Ht -> Hok.
    unfold insertTemplate. rewrite (find_template_label t Ht).
    assert (Hlang : template_language t = "typescript").
    { apply template_cases in Ht as [-> | [-> | ->]]; reflexivity. }
    assert (Hlabel : negb (truthy (Str (label t))) = false).
    { apply template_cases in Ht as [-> | [-> | ->]]; reflexivity. }
    rewrite Hlabel, Hlang.
    destruct (String.eqb "typescript" (languageId (document editor))) eqn:L;
      simpl.
    + exists [inr (ShowQuickPick (map label templates) "Select a template")].
      split; reflexivity.
    + destruct Hok as [Hok | ->].
      * rewrite Hok in L. discriminate.
      * eexists [_; _]. split; reflexivity.
Qed.

Lemma template_inserted_on_consent_witness :
  exists before,
    insertTemplate (Some (mkEditor (Samples.document_with "" "")
                                   (mkRange (mkPosition 0 0) (mkPosition 0 0))))
                   (mkPosition 0 0)
                   (Some "Weave with Classification") (Some "Cancel")
    = (before ++ [inr (EditInsert (mkPosition 0 0) (template classification));
                  inl (ShowInformationMessage "Template inserted" [])])%list
    /\ existsb is_insert before = false.
Proof.
  apply (proj2 (template_inserted_on_consent
                  (mkEditor (Samples.document_with "" "")
                            (mkRange (mkPosition 0 0) (mkPosition 0 0)))
                  (mkPosition 0 0)
                  (Some "Weave with Classification") (Some "Cancel"))
               classification).
  - right. left. reflexivity.
  - reflexivity.
  - left. reflexivity.
Defined.

End TemplateExtras.

(* ===================================================================== *)
(** ** Further facts: the completion provider *)
(* ===================================================================== *)

Section CompletionExtras.

Import Assistant Providers.

Lemma append_length (s t : string) :
  String.length (s ++ t) = String.length s + String.length t.
Proof. induction s as [|c s IH]; simpl; [reflexivity | now rewrite IH]. Qed.

Lemma try_catch_events {A B} (m : M A) (k : A -> M B) (h : Thrown -> M B) :
  exists rest, events (try_catch (bind m k) h) = (events m ++ rest)%list.
Proof.
  destruct m as [t [v|e]]; simpl.
  - destruct (k v) as [t' [r|e']]; simpl.
    + now exists t'.
    + destruct (h e') as [t'' o]. exists (t' ++ t'')%list.
      simpl. now rewrite app_assoc.
  - destruct (h e) as [t' o]. now exists t'.
Qed.



(** X15: what the completion provider delivers is never more than one
    candidate; its label begins with "Weave: ", ends with "..." and has at
    most 60 characters, and its sort text, detail and documentation are the
    fixed ones. *)
Theorem completion_single_bounded_candidate
        (a : WeaveAssistant) (transport : Transport) (document : TextDocument)
        (position : Position) (token : CancellationToken)
        (context : CompletionContext) (items : list CompletionItem) :
  outcome (provideCompletionItems a transport document position token context)
  = Returns (Some items) ->
  exists preview,
    items = [ {| label := "Weave: " ++ preview ++ "...";
                 kind := Text;
                 sortText := "0-weave";
                 detail := "AI-powered completion by Weave";
                 documentation := "Completion suggested by Weave AI Assistant" |} ]
    /\ String.length preview <= 50
    /\ String.length ("Weave: " ++ preview ++ "...") <= 60.
Proof.
  unfold provideCompletionItems.
  destruct (token 0); [discriminate|].
  destruct (Nat.ltb _ 3); [discriminate|].
  destruct (_ && _); [discriminate|].
  destruct (token 1); [discriminate|].
  match goal with
  | |- context [generateCompletion ?x ?t ?c ?p] =>
      destruct (generateCompletion x t c p) as [evs [v|e]]
  end; [|discriminate].
  destruct (token 2); [discriminate|].
  destruct v as [| | b | n | s | fields]; try discriminate.
  intros H. injection H as <-.
  exists (substring0 50 s).
  pose proof (substring0_length 50 s) as L.
  split; [reflexivity|]. rewrite !append_length. simpl. lia.
Qed.

Lemma completion_single_bounded_candidate_witness :
  exists preview,
    outcome (provideCompletionItems Samples.ready MockTransport
               (Samples.document_with Samples.two_lines "const")
               Samples.cursor_line_1 Samples.never_cancelled
               {| triggerKind := Invoke; triggerCharacter := None |})
    = Returns
        (Some [ {| label := "Weave: " ++ preview ++ "...";
                   kind := Text;
                   sortText := "0-weave";
                   detail := "AI-powered completion by Weave";
                   documentation :=
                     "Completion suggested by Weave AI Assistant" |} ])
    /\ String.length preview <= 50.
Proof.
  destruct (completion_single_bounded_candidate Samples.ready MockTransport
              (Samples.document_with Samples.two_lines "const")
              Samples.cursor_line_1 Samples.never_cancelled
              {| triggerKind := Invoke; triggerCharacter := None |} _ eq_refl)
    as (preview & Hitems & Hlen & _).
  exists preview. split; [|exact Hlen].
  rewrite <- Hitems. reflexivity.
Defined.

(** X16: the request the completion provider sends.  For a document given
    line by line, with the cursor on the line behind [before], an
    initialized assistant posts, as [prompt], the completion template filled
    with the language and the lines [before] only; the lines from the cursor
    line on are not in the request, whose [codeContext] names the language,
    the file and the cursor position. *)
Theorem completion_request_has_no_lookahead
        (a : WeaveAssistant) (reply : HttpReply) (document : TextDocument)
        (position : Position) (token : CancellationToken)
        (context : CompletionContext) (before after : list string) :
  isInitialized a = true ->
  getText document = join_nl (before ++ after) ->
  Forall (fun x => no_nl x = true) (before ++ after)%list ->
  line position = List.length before ->
  3 <= String.length (word_at document position) ->
  token 0 = false -> token 1 = false ->
  is_TriggerCharacter (triggerKind context)
  && no_character (triggerCharacter context) = false ->
  exists body rest,
    events (provideCompletionItems a (HttpTransport reply) document position
                                   token context)
    = WithProgress "Weave AI Assistant" "Analyzing with Weave AI..."
      :: HttpPost endpoint body :: rest
    /\ prompt body
       = "Complete this " ++ languageId document ++ " code based on context:

" ++ Composer.fence_open (languageId document) ++ join_nl before ++ nl
         ++ "|CURSOR_HERE|" ++ Composer.fence_close ++ "

Provide a natural completion that fits the code style and logic."
    /\ codeContext_language body = languageId document
    /\ codeContext_fileName body = document_fileName document
    /\ codeContext_line body = line position
    /\ codeContext_column body = character position.
Proof.
  intros Hinit Htext Hall Hline Hword T0 T1 Htrig.
  unfold provideCompletionItems.
  apply Nat.ltb_ge in Hword. rewrite T0, Hword, Htrig, T1.
  match goal with
  | |- context [try_catch (bind ?m ?k) ?h] =>
      destruct (try_catch_events m k h) as [rest ->]
  end.
  unfold generateCompletion. rewrite (guarded_call a _ Hinit).
  destruct position as [l ch]. simpl in Hline. subst l.
  rewrite Htext.
  assert (Hprompt :
    Composer.generateCompletion_userPrompt
      {| code := join_nl (before ++ after); language := languageId document;
         fileName := document_fileName document;
         ctx_line := line {| line := List.length before; character := ch |};
         ctx_column := character {| line := List.length before; character := ch |} |}
      {| line := List.length before; character := ch |}
    = "Complete this " ++ languageId document ++ " code based on context:

" ++ Composer.fence_open (languageId document) ++ join_nl before ++ nl
      ++ "|CURSOR_HERE|" ++ Composer.fence_close ++ "

Provide a natural completion that fits the code style and logic.").
  { rewrite generateCompletion_userPrompt_shape.
    now rewrite previousLines_joined. }
  destruct reply as [error | data]; [|destruct data];
    eexists; eexists;
    (split; [reflexivity | split; [exact Hprompt | repeat split]]).
Qed.

Lemma completion_request_has_no_lookahead_witness :
  exists body rest,
    events (provideCompletionItems Samples.ready
              (HttpTransport (PostRejects Samples.status_500))
              (Samples.document_with Samples.two_lines "const")
              Samples.cursor_line_1 Samples.never_cancelled
              {| triggerKind := Invoke; triggerCharacter := None |})
    = WithProgress "Weave AI Assistant" "Analyzing with Weave AI..."
      :: HttpPost Assistant.endpoint body :: rest
    /\ prompt body
       = "Complete this typescript code based on context:

```typescript
const a = 1;
|CURSOR_HERE|
```

Provide a natural completion that fits the code style and logic.".
Proof.
  destruct (completion_request_has_no_lookahead Samples.ready
              (PostRejects Samples.status_500)
              (Samples.document_with Samples.two_lines "const")
              Samples.cursor_line_1 Samples.never_cancelled
              {| triggerKind := Invoke; triggerCharacter := None |}
              ["const a = 1;"] ["const b = a"])
    as (body & rest & He & Hp & _); try reflexivity.
  - repeat constructor.
  - simpl. lia.
  - exists body, rest. split; [exact He | exact Hp].
Defined.

End CompletionExtras.

(* ===================================================================== *)
(** ** Further facts: the matches behind the code lenses *)
(* ===================================================================== *)

Section LensExtras.

Import FunctionPattern Spans Providers.

Lemma exec_all_spans (text : string) (fuel : nat) : forall lastIndex ms,
  exec_all fuel text lastIndex = Some ms ->
  Forall (fun i => lastIndex <= i
                   /\ exists len, matches_at text i len
                                  /\ i + len <= String.length text) ms
  /\ StronglySorted lt ms
  /\ apart text ms.
Proof.
  induction fuel as [|fuel IH]; intros lastIndex ms H; [discriminate|].
  rewrite exec_all_S in H.
  destruct (exec text lastIndex) as [[i lastIndex']|] eqn:E.
  - destruct (exec_all fuel text lastIndex') as [ms'|] eqn:R; [|discriminate].
    injection H as <-.
    pose proof (exec_bounds _ _ _ _ E) as (B1 & B2 & B3).
    pose proof (exec_sound _ _ _ _ E) as (S1 & S2).
    destruct (IH _ _ R) as (F & Sorted & Apart).
    split; [|split].
    + constructor.
      * split; [exact B1|]. exists (lastIndex' - i).
        split; [split; assumption | lia].
      * eapply Forall_impl; [|exact F].
        intros j [Hj Hrest]. split; [lia | exact Hrest].
    + constructor; [exact Sorted|].
      eapply Forall_impl; [|exact F]. intros j [Hj _]. lia.
    + destruct ms' as [|j ms'']; [exact I|].
      split; [|exact Apart].
      exists (lastIndex' - i). split; [exact S2|].
      inversion F as [|? ? [Hj _] _]; subst. lia.
  - injection H as <-. repeat constructor.
Qed.

(** X17: the matches behind the optimize lenses come in increasing order
    of offset, each begins at the start of a line and ends inside the text,
    and each ends before the next one begins. *)
Theorem matches_ordered_and_apart (text : string) :
  Forall (fun i => exists len, matches_at text i len
                               /\ i + len <= String.length text)
         (matches text)
  /\ StronglySorted lt (matches text)
  /\ apart text (matches text).
Proof.
  destruct (exec_all_spans text _ _ _ (matches_exec_all text))
    as (F & Sorted & Apart).
  split; [|split; assumption].
  eapply Forall_impl; [|exact F]. intros i [_ H]. exact H.
Qed.

Lemma drop_empty (n m : nat) (text : string) :
  drop n text = "" -> n <= m -> drop m text = "".
Proof.
  revert m text. induction n as [|n IH]; intros m text H Hle.
  - simpl in H. subst text. now destruct m.
  - destruct m as [|m]; [lia|].
    destruct text as [|c text]; [reflexivity|].
    simpl in *. apply IH; [exact H | lia].
Qed.

(** [search] passes over no place where a line starts and the pattern
    matches. *)
Lemma search_leftmost (text : string) (s : string) : forall index,
  s = drop index text ->
  match search s index (line_start text index) with
  | Some (i, _) =>
      forall j len, index <= j < i -> ~ matches_at text j len
  | None => forall j len, index <= j -> ~ matches_at text j len
  end.
Proof.
  induction s as [|c s IH]; intros index Hs.
  - simpl. intros j len Hj [_ Hm].
    rewrite (drop_empty index j text) in Hm by (auto; lia). discriminate.
  - cbn [search].
    destruct (if line_start text index then match_here (String c s) else None)
      as [len0|] eqn:E.
    + intros j len Hj. lia.
    + symmetry in Hs. destruct (drop_step _ _ _ _ Hs) as [Hrest Hget].
      specialize (IH (S index) (eq_sym Hrest)).
      replace (line_start text (S index)) with (is_line_terminator c) in IH
        by (simpl; now rewrite Hget).
      assert (Hhere : forall len, ~ matches_at text index len).
      { intros len [Hl Hm]. rewrite Hl, <- Hs, Hm in E. discriminate. }
      destruct (search s (S index) (is_line_terminator c)) as [[i li]|].
      * intros j len Hj. destruct (Nat.eq_dec j index) as [->|Hne];
          [apply Hhere | apply IH; lia].
      * intros j len Hj. destruct (Nat.eq_dec j index) as [->|Hne];
          [apply Hhere | apply IH; lia].
Qed.

Lemma exec_leftmost (text : string) (lastIndex : nat) :
  lastIndex <= String.length text ->
  match exec text lastIndex with
  | Some (i, _) =>
      forall j len, lastIndex <= j < i -> ~ matches_at text j len
  | None => forall j len, lastIndex <= j -> ~ matches_at text j len
  end.
Proof.
  intros Hle. unfold exec.
  apply Nat.ltb_ge in Hle. rewrite Hle.
  apply search_leftmost. reflexivity.
Qed.

Lemma exec_all_complete (text : string) (fuel : nat) : forall lastIndex ms,
  lastIndex <= String.length text ->
  exec_all fuel text lastIndex = Some ms ->
  forall j len,
    lastIndex <= j -> matches_at text j len ->
    In j ms
    \/ exists i len', In i ms /\ match_here (drop i text) = Some len'
                      /\ i < j < i + len'.
Proof.
  induction fuel as [|fuel IH]; intros lastIndex ms Hle H j len Hj Hm;
    [discriminate|].
  rewrite exec_all_S in H.
  pose proof (exec_leftmost text lastIndex Hle) as L.
  destruct (exec text lastIndex) as [[i lastIndex']|] eqn:E.
  - destruct (exec_all fuel text lastIndex') as [ms'|] eqn:R; [|discriminate].
    injection H as <-.
    pose proof (exec_bounds _ _ _ _ E) as (B1 & B2 & B3).
    pose proof (exec_sound _ _ _ _ E) as (S1 & S2).
    destruct (Nat.lt_trichotomy j i) as [Hlt | [-> | Hgt]].
    + exfalso. apply (L j len); [lia | exact Hm].
    + left. now left.
    + destruct (Nat.lt_ge_cases j lastIndex') as [Hin | Hout].
      * right. exists i, (lastIndex' - i).
        split; [now left | split; [exact S2 | lia]].
      * destruct (IH _ _ B3 R j len Hout Hm) as [Hj' | (i' & len' & Hi' & Hm' & Hr)].
        -- left. now right.
        -- right. exists i', len'. split; [now right | auto].
  - exfalso. apply (L j len); [exact Hj | exact Hm].
Qed.

(** X18: no declaration at the start of a line is passed over.  Wherever a
    line starts and the pattern matches, that offset is one of the matches
    (and gets its optimize lens), unless it lies inside the characters of
    an earlier match. *)
Theorem matches_complete (text : string) (j len : nat) :
  matches_at text j len ->
  In j (matches text)
  \/ exists i len', In i (matches text)
                    /\ match_here (drop i text) = Some len'
                    /\ i < j < i + len'.
Proof.
  intros Hm.
  apply (exec_all_complete text _ 0 _ (Nat.le_0_l _)
           (matches_exec_all text) j len (Nat.le_0_l _) Hm).
Qed.

Lemma matches_complete_witness :
  In 39 (matches "function a() {}
  function nested() {}
class B {}")
  \/ exists i len',
       In i (matches "function a() {}
  function nested() {}
class B {}")
       /\ match_here (drop i "function a() {}
  function nested() {}
class B {}") = Some len'
       /\ i < 39 < i + len'.
Proof.
  apply (matches_complete "function a() {}
  function nested() {}
class B {}" 39 7).
  split; reflexivity.
Defined.

Lemma keyword_min (s r : string) (k : nat) :
  keyword s = Some (k, r) -> 5 <= k.
Proof.
  unfold keyword.
  destruct (strip_literal "function" s); [intros H; injection H as <- _; lia|].
  destruct (strip_literal "class" s); [|discriminate].
  intros H. injection H as <- _. lia.
Qed.

Lemma declaration_min (s : string) (n : nat) :
  declaration s = Some n -> 7 <= n.
Proof.
  unfold declaration.
  destruct (keyword s) as [[k r1]|] eqn:K; [|discriminate].
  destruct (plus is_space r1) as [[n1 r2]|] eqn:P1; [|discriminate].
  destruct (plus is_word r2) as [[n2 r3]|] eqn:P2; [|discriminate].
  intros H. injection H as <-.
  apply keyword_min in K. apply plus_length in P1. apply plus_length in P2.
  lia.
Qed.

Lemma match_here_min (s : string) (n : nat) :
  match_here s = Some n -> 7 <= n.
Proof.
  unfold match_here.
  destruct (strip_literal "async" s) as [r|]; [|apply declaration_min].
  destruct (plus is_space r) as [[n1 r']|]; [|apply declaration_min].
  destruct (declaration r') as [m|] eqn:D; [|apply declaration_min].
  intros H. injection H as <-. apply declaration_min in D. lia.
Qed.

Lemma exec_all_consumes (text : string) (fuel : nat) : forall lastIndex ms,
  lastIndex <= String.length text ->
  exec_all fuel text lastIndex = Some ms ->
  lastIndex + 7 * List.length ms <= String.length text.
Proof.
  induction fuel as [|fuel IH]; intros lastIndex ms Hle H; [discriminate|].
  rewrite exec_all_S in H.
  destruct (exec text lastIndex) as [[i lastIndex']|] eqn:E.
  - destruct (exec_all fuel text lastIndex') as [ms'|] eqn:R; [|discriminate].
    injection H as <-.
    pose proof (exec_bounds _ _ _ _ E) as (B1 & B2 & B3).
    pose proof (exec_sound _ _ _ _ E) as (_ & S2).
    apply match_here_min in S2.
    specialize (IH _ _ B3 R). simpl. lia.
  - injection H as <-. simpl. lia.
Qed.

(** X19: every match takes at least seven characters of the text (a
    keyword, white space, a name), so a text of [n] characters gets at most
    [n / 7] optimize lenses: whatever the provider returns has at most
    [1 + n / 7] lenses, and at least the analyze lens. *)
Theorem code_lenses_bounded
        (document : TextDocument) (token : CancellationToken)
        (lenses : list CodeLens) :
  provideCodeLenses document token = Returned (Some lenses) ->
  1 <= List.length lenses
  /\ 7 * (List.length lenses - 1) <= String.length (getText document)
  /\ hd_error lenses = Some analyze_lens.
Proof.
  rewrite provideCodeLenses_matches.
  destruct (existsb token _); [discriminate|].
  intros H. injection H as <-.
  pose proof (exec_all_consumes _ _ 0 _ (Nat.le_0_l _)
                (matches_exec_all (getText document))) as B.
  simpl. rewrite length_map. repeat split; lia.
Qed.

Lemma code_lenses_bounded_witness :
  exists lenses,
    provideCodeLenses (Samples.document_with "class A" "class")
                      Samples.never_cancelled
    = Returned (Some lenses)
    /\ 1 <= List.length lenses
    /\ 7 * (List.length lenses - 1) <= 7.
Proof.
  eexists. split; [reflexivity|].
  destruct (code_lenses_bounded (Samples.document_with "class A" "class")
              Samples.never_cancelled _ eq_refl) as (H1 & H2 & _).
  split; [exact H1 | exact H2].
Defined.

End LensExtras.

(* ===================================================================== *)
(** ** Further facts: activation, listeners, deactivation *)
(* ===================================================================== *)

Section ActivationExtras.

Import Assistant Activation.

Lemma manager_initialize (host : Settings.WorkspaceConfiguration) :
  (Settings.getApiKey host = "" /\ Settings.getProvider host <> local
   /\ initialize (Assistant.new (Settings.manager host))
      = (Assistant.new (Settings.manager host),
         ([LogError "Failed to initialize WeaveAssistant:"],
          Throws (ErrorInstance
                    ("API key not configured for "
                     ++ provider_name (Settings.getProvider host))))))
  \/ ((Settings.getApiKey host <> "" \/ Settings.getProvider host = local)
      /\ initialize (Assistant.new (Settings.manager host))
         = ({| config := Settings.manager host; isInitialized := true |},
            ([LogInfo "WeaveAssistant initialized successfully"], Returns tt))).
Proof.
  unfold initialize, Assistant.new, Settings.manager. simpl.
  destruct (Settings.getApiKey host) as [|c k] eqn:K.
  - destruct (Settings.getProvider host) eqn:P;
      solve [ left; repeat split; congruence
            | right; split; [right; reflexivity | reflexivity] ].
  - right. split; [left; discriminate | reflexivity].
Qed.

(** X20: with an empty API key and a provider other than [local], as when
    nothing is configured, activation registers nothing (no command, no
    provider, no listener), shows the one message "Failed to initialize
    Weave AI Assistant", and leaves the status bar loading, the assistant
    not initialized and no command handler. *)
Theorem activation_fails_without_key (host : Settings.WorkspaceConfiguration) :
  (Settings.getApiKey host = "" -> Settings.getProvider host <> local ->
   activate host
   = {| globals :=
          {| weaveAssistant := Some (Assistant.new (Settings.manager host));
             statusBarManager := Some StatusBar.new;
             commandHandler := None |};
        subscriptions := [];
        shown :=
          [LogInfo "Weave AI Assistant is activating...";
           LogError "Failed to initialize WeaveAssistant:";
           LogError "Failed to activate Weave AI Assistant:";
           ShowErrorMessage "Failed to initialize Weave AI Assistant"] |})
  /\ subscriptions (activate Settings.unset) = []
  /\ (subscriptions (activate host) = [] <->
      Settings.getApiKey host = "" /\ Settings.getProvider host <> local).
Proof.
  split; [|split].
  - intros K P. unfold activate.
    destruct (manager_initialize host) as [(_ & _ & ->) | ([K' | P'] & _)];
      [reflexivity | congruence | congruence].
  - reflexivity.
  - unfold activate.
    destruct (manager_initialize host) as [(K & P & ->) | (H & ->)]; simpl.
    + split; auto.
    + split; [discriminate|]. intros [K P]. destruct H; congruence.
Qed.

Lemma activation_fails_without_key_witness :
  subscriptions
    (activate (Settings.mkSettings None None (Some anthropic) None None None
                                   None None None None))
  = [].
Proof.
  rewrite (proj1 (activation_fails_without_key
                    (Settings.mkSettings None None (Some anthropic) None None
                                         None None None None None))).
  - reflexivity.
  - reflexivity.
  - discriminate.
Defined.

(** X21: with an API key, or with the [local] provider, activation leaves
    an initialized assistant, a command handler with inline hints enabled
    and the status bar ready; it registers the six commands, in the order
    of the source, then the providers, then the three listeners, and shows
    no message. *)
Theorem activation_registers_commands (host : Settings.WorkspaceConfiguration) :
  Settings.getApiKey host <> "" \/ Settings.getProvider host = local ->
  globals (activate host)
  = {| weaveAssistant :=
         Some {| config := Settings.manager host; isInitialized := true |};
       statusBarManager := Some (StatusBar.setReady StatusBar.new);
       commandHandler := Some new_CommandHandler |}
  /\ subscriptions (activate host)
     = (registerCommands ++ registerProviders host ++ registerEventListeners)%list
  /\ filter is_command (subscriptions (activate host))
     = [CommandRegistration "weave.generatePrompt";
        CommandRegistration "weave.analyzeCode";
        CommandRegistration "weave.suggestOptimization";
        CommandRegistration "weave.showDocumentation";
        CommandRegistration "weave.insertWeaveTemplate";
        CommandRegistration "weave.toggleInlineHints"]
  /\ Trace.error_messages (shown (activate host)) = [].
Proof.
  intros H. unfold activate.
  destruct (manager_initialize host) as [(K & P & _) | (_ & ->)];
    [destruct H; congruence|].
  simpl. repeat split.
  unfold registerProviders.
  rewrite !filter_app.
  destruct (Settings.get (Settings.enableCodeCompletion host) true);
    destruct (Settings.get (Settings.enableCodeLens host) true);
    simpl;
    induction (Settings.get (Settings.languageScope host)
                            Settings.default_languageScope);
    simpl; auto.
Qed.

Lemma activation_registers_commands_witness :
  globals (activate (Settings.mkSettings None None (Some local) None None None
                                         None None None (Some ["go"])))
  = {| weaveAssistant :=
         Some {| config :=
                   Settings.manager
                     (Settings.mkSettings None None (Some local) None None None
                                          None None None (Some ["go"]));
                 isInitialized := true |};
       statusBarManager := Some (StatusBar.setReady StatusBar.new);
       commandHandler := Some new_CommandHandler |}.
Proof.
  apply (activation_registers_commands
           (Settings.mkSettings None None (Some local) None None None
                                None None None (Some ["go"]))).
  right. reflexivity.
Defined.

Lemma filter_map_all {A B} (p : B -> bool) (f : A -> B) (l : list A) :
  (forall x, p (f x) = true) -> filter p (map f l) = map f l.
Proof.
  intros H. induction l as [|x l IH]; simpl; [reflexivity|].
  now rewrite H, IH.
Qed.

Lemma filter_map_none {A B} (p : B -> bool) (f : A -> B) (l : list A) :
  (forall x, p (f x) = false) -> filter p (map f l) = [].
Proof.
  intros H. induction l as [|x l IH]; simpl; [reflexivity|].
  now rewrite H, IH.
Qed.

(** X22: the providers are registered per language of the scope read at
    activation (the three default languages when unset): one completion
    provider with trigger character "." for each language when code
    completion is enabled, none when it is disabled, and likewise one
    code-lens provider for each language when code lenses are enabled; a
    language listed twice is registered twice. *)
Theorem providers_follow_settings (host : Settings.WorkspaceConfiguration) :
  filter is_completion_provider (registerProviders host)
  = (if Settings.codeCompletionEnabled host
     then map (fun language => CompletionItemProviderRegistration language ".")
              (Settings.getLanguageScope host)
     else [])
  /\ filter is_code_lens_provider (registerProviders host)
     = (if Settings.codeLensEnabled host
        then map CodeLensProviderRegistration (Settings.getLanguageScope host)
        else [])
  /\ Settings.getLanguageScope Settings.unset
     = ["typescript"; "javascript"; "python"]
  /\ List.length (registerProviders host)
     = ((if Settings.codeCompletionEnabled host then 1 else 0)
        + (if Settings.codeLensEnabled host then 1 else 0))
       * List.length (Settings.getLanguageScope host).
Proof.
  unfold registerProviders, Settings.codeCompletionEnabled,
    Settings.codeLensEnabled, Settings.getLanguageScope.
  set (scope := Settings.get (Settings.languageScope host)
                             Settings.default_languageScope).
  rewrite !filter_app, length_app.
  destruct (Settings.get (Settings.enableCodeCompletion host) true);
    destruct (Settings.get (Settings.enableCodeLens host) true);
    rewrite ?length_map;
    rewrite ?(filter_map_all is_completion_provider
                (fun language => CompletionItemProviderRegistration language "."))
      by reflexivity;
    rewrite ?(filter_map_none is_completion_provider CodeLensProviderRegistration)
      by reflexivity;
    rewrite ?(filter_map_all is_code_lens_provider CodeLensProviderRegistration)
      by reflexivity;
    rewrite ?(filter_map_none is_code_lens_provider
                (fun language => CompletionItemProviderRegistration language "."))
      by reflexivity;
    simpl; rewrite ?app_nil_r; repeat split; lia.
Qed.

(** X23: when the active editor changes after activation, the status bar
    shows "Weave Active" if the editor's language is in the scope the host
    holds at that moment and "Weave Inactive" if not; with no editor, or
    before an assistant exists, nothing changes; the assistant and the
    command handler are never touched. *)
Theorem status_follows_editor_language
        (g : Globals) (host : Settings.WorkspaceConfiguration)
        (editor : TextEditor) (a : WeaveAssistant) (bar : StatusBar.StatusBarManager) :
  (weaveAssistant g = Some a -> statusBarManager g = Some bar ->
   option_map StatusBar.text
     (statusBarManager (onDidChangeActiveTextEditor g host (Some editor)))
   = Some (if Settings.isLanguageInScope host (languageId (document editor))
           then "$(lightbulb) Weave Active"
           else "$(circle-slash) Weave Inactive"))
  /\ onDidChangeActiveTextEditor g host None = g
  /\ (weaveAssistant g = None ->
      onDidChangeActiveTextEditor g host (Some editor) = g)
  /\ weaveAssistant (onDidChangeActiveTextEditor g host (Some editor))
     = weaveAssistant g
  /\ commandHandler (onDidChangeActiveTextEditor g host (Some editor))
     = commandHandler g.
Proof.
  unfold onDidChangeActiveTextEditor, Settings.isLanguageInScope,
    Settings.getLanguageScope.
  split; [|split; [|split; [|split]]].
  - intros Ha Hb. rewrite Ha, Hb. simpl.
    destruct (Settings.array_includes _ _); reflexivity.
  - reflexivity.
  - intros Ha. now rewrite Ha.
  - destruct (weaveAssistant g) eqn:E; [reflexivity | exact E].
  - destruct (weaveAssistant g); reflexivity.
Qed.

Lemma status_follows_editor_language_witness :
  option_map StatusBar.text
    (statusBarManager
       (onDidChangeActiveTextEditor
          (globals (activate (Settings.mkSettings None (Some "sk-test") None None
                                None None None None None None)))
          Settings.unset (Some Samples.editor_with_cursor)))
  = Some "$(lightbulb) Weave Active".
Proof.
  apply (proj1 (status_follows_editor_language
                  (globals (activate (Settings.mkSettings None (Some "sk-test")
                                        None None None None None None None None)))
                  Settings.unset Samples.editor_with_cursor
                  {| config := Settings.manager
                                 (Settings.mkSettings None (Some "sk-test") None
                                    None None None None None None None);
                     isInitialized := true |}
                  (StatusBar.setReady StatusBar.new))).
  - reflexivity.
  - reflexivity.
Defined.

(** X24: after [deactivate] the assistant, if there is one, is back in the
    state before initialization, so each of its five operations throws
    "WeaveAssistant not initialized" without reaching the transport; the
    status bar item is disposed; before any activation [deactivate] only
    logs. *)
Theorem deactivate_disposes
        (g : Globals) (a : WeaveAssistant) (transport : Transport)
        (op : Lifecycle.Op) (context : WeaveCodeContext) :
  (weaveAssistant g = Some a ->
   exists a',
     weaveAssistant (fst (deactivate g)) = Some a'
     /\ config a' = config a
     /\ Lifecycle.run_op a' transport op context
        = ([], Throws (ErrorInstance "WeaveAssistant not initialized")))
  /\ option_map StatusBar.disposed (statusBarManager (fst (deactivate g)))
     = option_map (fun _ => true) (statusBarManager g)
  /\ deactivate not_activated
     = (not_activated, [LogInfo "Weave AI Assistant is deactivating..."]).
Proof.
  split; [|split].
  - intros Ha. exists (dispose a). unfold deactivate. simpl. rewrite Ha.
    split; [reflexivity | split; [reflexivity|]].
    now apply run_op_uninitialized.
  - unfold deactivate. simpl. now destruct (statusBarManager g).
  - reflexivity.
Qed.

Lemma deactivate_disposes_witness :
  exists a',
    weaveAssistant
      (fst (deactivate
              (globals (activate (Settings.mkSettings None (Some "sk-test") None
                                    None None None None None None None)))))
    = Some a'
    /\ Lifecycle.run_op a' MockTransport Lifecycle.op_analyzeCode
                        Samples.context_two_lines
       = ([], Throws (ErrorInstance "WeaveAssistant not initialized")).
Proof.
  destruct (proj1 (deactivate_disposes
                     (globals (activate (Settings.mkSettings None (Some "sk-test")
                                           None None None None None None None None)))
                     {| config := Settings.manager
                                    (Settings.mkSettings None (Some "sk-test") None
                                       None None None None None None None);
                        isInitialized := true |}
                     MockTransport Lifecycle.op_analyzeCode
                     Samples.context_two_lines) eq_refl)
    as (a' & H1 & _ & H3).
  exists a'. split; [exact H1 | exact H3].
Defined.

(** X25: a configuration change that affects [weave] makes the assistant
    read the new settings and shows one information message, but the key is
    not validated again: an initialized assistant stays initialized even
    when the new settings have no API key, and its next request carries the
    new provider and model; a change that does not affect [weave] does
    nothing. *)
Theorem configuration_change_not_revalidated
        (g : Globals) (host : Settings.WorkspaceConfiguration)
        (a : WeaveAssistant) (reply : HttpReply) (context : WeaveCodeContext) :
  (weaveAssistant g = Some a ->
   exists a',
     weaveAssistant (fst (onDidChangeConfiguration g true host)) = Some a'
     /\ isInitialized a' = isInitialized a
     /\ config a' = Settings.manager host
     /\ (isInitialized a = true ->
         exists body rest,
           events (analyzeCode a' (HttpTransport reply) context)
           = WithProgress "Weave AI Assistant" "Analyzing with Weave AI..."
             :: HttpPost endpoint body :: rest
           /\ body_provider body = Settings.getProvider host
           /\ body_model body = Settings.getModel host
           /\ body_temperature body = Settings.getTemperature host
           /\ body_maxTokens body = Settings.getMaxTokens host))
  /\ snd (onDidChangeConfiguration g true host)
     = [ShowInformationMessage "Weave configuration updated" []]
  /\ onDidChangeConfiguration g false host = (g, []).
Proof.
  split; [|split; reflexivity].
  intros Ha. unfold onDidChangeConfiguration. simpl. rewrite Ha. simpl.
  eexists. split; [reflexivity|]. split; [reflexivity|].
  split; [reflexivity|].
  intros Hinit. unfold analyzeCode.
  rewrite guarded_call by exact Hinit.
  destruct reply as [error | data]; [|destruct data];
    eexists; eexists; (split; [reflexivity | repeat split]).
Qed.

Lemma configuration_change_not_revalidated_witness :
  exists a',
    weaveAssistant
      (fst (onDidChangeConfiguration
              {| weaveAssistant := Some Samples.ready;
                 statusBarManager := Some (StatusBar.setReady StatusBar.new);
                 commandHandler := Some new_CommandHandler |}
              true Settings.unset))
    = Some a'
    /\ isInitialized a' = true
    /\ getApiKey (config a') = "".
Proof.
  destruct (proj1 (configuration_change_not_revalidated
                     {| weaveAssistant := Some Samples.ready;
                        statusBarManager := Some (StatusBar.setReady StatusBar.new);
                        commandHandler := Some new_CommandHandler |}
                     Settings.unset Samples.ready
                     (PostRejects Samples.status_500)
                     Samples.context_two_lines) eq_refl)
    as (a' & H1 & H2 & H3 & _).
  exists a'. split; [exact H1|]. split; [exact H2|]. now rewrite H3.
Defined.

End ActivationExtras.
